(** * Storefront and admin console: cart, checkout, catalogue filter and
      the key-value backed REST handlers

    A shallow embedding of the TypeScript sources.  Client components keep
    the record types of their [interface] declarations; the server handlers
    work on untyped JSON objects, as the code does.  JavaScript numbers are
    IEEE 754 binary64 values, embedded as Rocq's primitive floats, so that
    [===], [||] and the arithmetic of the code keep their corner cases. *)

From Stdlib Require Import Floats Ascii.
From stdpp Require Import gmap strings list fin_maps pretty sorting.

#[local] Set Warnings "-inexact-float,-register-all".

(** ** JavaScript runtime notions used by the sources *)
Module JS.

(** [Boolean(x)] of a number: [0], [-0] and [NaN] are falsy. *)
Definition truthy_num (x : float) : bool :=
  negb (PrimFloat.eqb x 0 || PrimFloat.is_nan x).

(** [Boolean(s)] of a string: only the empty string is falsy. *)
Definition truthy_str (s : string) : bool :=
  negb (String.eqb s "").

(** [a || b] on numbers. *)
Definition or_num (a b : float) : float :=
  if truthy_num a then a else b.

(** [xs.reduce((sum, x) => sum + x, 0)]. *)
Definition sum (xs : list float) : float :=
  fold_left PrimFloat.add xs 0%float.

(** The number [n], for the [length] of an array. *)
Definition number (n : nat) : float :=
  PrimFloat.of_uint63 (Uint63.of_Z (Z.of_nat n)).

(** [s.includes(sub)] on strings. *)
Fixpoint includes (s sub : string) : bool :=
  String.prefix sub s ||
  match s with
  | EmptyString => false
  | String _ s' => includes s' sub
  end.

(** [xs.includes(x)] on an array of strings. *)
Definition array_includes (xs : list string) (x : string) : bool :=
  existsb (String.eqb x) xs.

(** [s.split(sep)] for a one-character separator. *)
Fixpoint split (sep : Ascii.ascii) (s : string) : list string :=
  match s with
  | EmptyString => [EmptyString]
  | String c s' =>
      if Ascii.eqb c sep then EmptyString :: split sep s'
      else match split sep s' with
           | w :: ws => String c w :: ws
           | [] => [String c EmptyString]
           end
  end.

(** [Array.prototype.sort].  ECMAScript requires the sort to be stable and
    reads the comparator only through the sign of its result, a [NaN]
    result counting as [+0].  The model is the stable insertion sort:
    every element is put in front of the first element of the sorted tail
    that does not have to precede it.  [gt x y] says that the comparator
    is positive on [(x, y)]. *)
Fixpoint insert {A : Type} (gt : A → A → bool) (x : A) (l : list A) : list A :=
  match l with
  | [] => [x]
  | y :: l' => if gt x y then y :: insert gt x l' else x :: y :: l'
  end.

Definition sort_by {A : Type} (gt : A → A → bool) (l : list A) : list A :=
  foldr (insert gt) [] l.

(** [l.sort(comparefn)] for a comparator that returns a number. *)
Definition sort {A : Type} (comparefn : A → A → float) (l : list A) : list A :=
  sort_by (fun a b => PrimFloat.ltb 0 (comparefn a b)) l.


End JS.

(** ** CheckoutDialog.tsx *)
Module Checkout.

Record CartItem := {
  id : string;
  name : string;
  price : float;
  quantity : float;
  selectedSize : float;
  selectedColor : string;
}.

Record DeliveryLocation := {
  loc_id : string;
  loc_name : string;
  cost : float;
  region : string;
}.

(** [cart.reduce((sum, item) => sum + item.price * item.quantity, 0)] *)
Definition subtotal (cart : list CartItem) : float :=
  fold_left (fun sum item => sum + price item * quantity item)%float cart 0%float.

(** [selectedLocation?.cost || 0]; [selectedLocation] is [null] until a
    zone is chosen, and [undefined || 0] is [0]. *)
Definition deliveryCost (selectedLocation : option DeliveryLocation) : float :=
  match selectedLocation with
  | Some l => JS.or_num (cost l) 0%float
  | None => 0%float
  end.

(** [subtotal * 0.08] *)
Definition tax (cart : list CartItem) : float :=
  (subtotal cart * 0.08)%float.

(** [subtotal + deliveryCost + tax] *)
Definition total (cart : list CartItem) (selectedLocation : option DeliveryLocation) : float :=
  (subtotal cart + deliveryCost selectedLocation + tax cart)%float.

(** A cart line and a delivery zone for the worked example. *)
Definition line (p q : float) : CartItem :=
  {| id := "p1"; name := "Urban Runner Pro"; price := p; quantity := q;
     selectedSize := 9%float; selectedColor := "Black" |}.

Definition zone (c : float) : DeliveryLocation :=
  {| loc_id := "d1"; loc_name := "Nairobi CBD"; cost := c; region := "Nairobi" |}.

End Checkout.

(** ** StoreFront.tsx: catalogue filter, sort and cart *)
Module StoreFront.

Record Product := {
  id : string;
  name : string;
  description : string;
  price : float;
  category : string;
  sizes : list float;
  colors : list string;
  imageUrl : string;
  stock : float;
  featured : bool;
}.

(** [interface CartItem extends Product]: the product's fields, copied by
    [...product], and the three fields of the line. *)
Record CartItem := {
  item : Product;
  quantity : float;
  selectedSize : float;
  selectedColor : string;
}.

(** [interface Category].  The component reads the subcategories through
    [c.subcategories || [c.name]], so the field can be missing at run
    time: [None] is a missing ([undefined] or [null]) field, [Some []] an
    empty array. *)
Record Category := {
  cat_id : string;
  cat_name : string;
  cat_description : string;
  active : bool;
  subcategories : option (list string);
}.

(** The two locale-dependent string methods of the runtime. *)
Class Runtime := {
  toLowerCase : string → string;
  localeCompare : string → string → float;
}.

(** [c.subcategories || [c.name]]: an array, even an empty one, is truthy. *)
Definition subcategoriesOrName (c : Category) : list string :=
  match subcategories c with
  | Some subs => subs
  | None => [cat_name c]
  end.

(** [categories.flatMap(c => c.subcategories || [c.name])] *)
Definition activeSubcategories (categories : list Category) : list string :=
  flat_map subcategoriesOrName categories.

(** The predicate of the search filter. *)
Definition matchesSearch `{Runtime} (searchQuery : string) (p : Product) : bool :=
  JS.includes (toLowerCase (name p)) (toLowerCase searchQuery)
  || JS.includes (toLowerCase (description p)) (toLowerCase searchQuery)
  || JS.includes (toLowerCase (category p)) (toLowerCase searchQuery).

(** The four filters of [filterAndSortProducts], in the order of the code. *)
Definition filterProducts `{Runtime} (products : list Product) (categories : list Category)
    (searchQuery categoryFilter : string) (priceRange : float * float) : list Product :=
  let filtered := products in
  let filtered :=
    List.filter (fun p => JS.array_includes (activeSubcategories categories) (category p))
      filtered in
  let filtered :=
    if JS.truthy_str searchQuery
    then List.filter (matchesSearch searchQuery) filtered
    else filtered in
  let filtered :=
    if negb (String.eqb categoryFilter "all")
    then List.filter (fun p => String.eqb (category p) categoryFilter) filtered
    else filtered in
  List.filter (fun p => PrimFloat.leb (fst priceRange) (price p)
                        && PrimFloat.leb (price p) (snd priceRange)) filtered.

(** A product that is not featured. *)
Definition plain (p : Product) : bool :=
  negb (featured p).

(** The comparator of the "featured" case. *)
Definition featuredFirst (a b : Product) : float :=
  if featured a && negb (featured b) then (-1)%float
  else if negb (featured a) && featured b then 1%float
  else 0%float.

(** The [switch (sortBy)]. *)
Definition sortProducts `{Runtime} (sortBy : string) (filtered : list Product) : list Product :=
  if String.eqb sortBy "price-low" then
    JS.sort (fun a b => price a - price b)%float filtered
  else if String.eqb sortBy "price-high" then
    JS.sort (fun a b => price b - price a)%float filtered
  else if String.eqb sortBy "name" then
    JS.sort (fun a b => localeCompare (name a) (name b)) filtered
  else if String.eqb sortBy "featured" then
    JS.sort featuredFirst filtered
  else filtered.

(** The list handed to [setFilteredProducts]. *)
Definition filterAndSortProducts `{Runtime} (products : list Product)
    (categories : list Category) (searchQuery categoryFilter sortBy : string)
    (priceRange : float * float) : list Product :=
  sortProducts sortBy (filterProducts products categories searchQuery categoryFilter priceRange).

(** The test used by [find] and [map] in [addToCart]: three [===]. *)
Definition sameLine (product : Product) (size : float) (color : string)
    (it : CartItem) : bool :=
  String.eqb (id (item it)) (id product)
  && PrimFloat.eqb (selectedSize it) size
  && String.eqb (selectedColor it) color.

(** The state update passed to [setCart] by [addToCart]. *)
Definition addToCart (product : Product) (size : float) (color : string)
    (prevCart : list CartItem) : list CartItem :=
  match List.find (sameLine product size color) prevCart with
  | Some existingItem =>
      map (fun it =>
             if sameLine product size color it
             then {| item := item it; quantity := (quantity it + 1)%float;
                     selectedSize := selectedSize it;
                     selectedColor := selectedColor it |}
             else it) prevCart
  | None =>
      prevCart ++ [ {| item := product; quantity := 1%float;
                       selectedSize := size; selectedColor := color |} ]
  end.

(** A T-shirt of the sample catalogue; its size labels are "S" to "XXL",
    not numbers, and [parseInt] of such a label is [NaN].  Then a product
    and a category as the admin form creates them when the subcategories
    are left empty. *)
Definition tshirt : Product :=
  {| id := "p-tshirt"; name := "Premium Cotton T-Shirt"; description := "";
     price := 1200%float; category := "T-Shirts"; sizes := [];
     colors := ["White"; "Black"; "Navy"; "Grey"];
     imageUrl := ""; stock := 100%float; featured := true |}.

Definition bag : Product :=
  {| id := "p-bag"; name := "Tote"; description := ""; price := 2500%float;
     category := "Bags"; sizes := []; colors := ["Tan"]; imageUrl := "";
     stock := 4%float; featured := true |}.

Definition bags : Category :=
  {| cat_id := "c-bags"; cat_name := "Bags"; cat_description := "Bags and totes";
     active := true; subcategories := Some [] |}.

(** The test of [removeFromCart] and [updateCartQuantity], on the id. *)
Definition sameKey (productId : string) (size : float) (color : string)
    (it : CartItem) : bool :=
  String.eqb (id (item it)) productId
  && PrimFloat.eqb (selectedSize it) size
  && String.eqb (selectedColor it) color.

(** The state update passed to [setCart] by [removeFromCart]. *)
Definition removeFromCart (productId : string) (size : float) (color : string)
    (prevCart : list CartItem) : list CartItem :=
  List.filter (fun it => negb (sameKey productId size color it)) prevCart.

(** [updateCartQuantity]: a quantity [<= 0] removes the line. *)
Definition updateCartQuantity (productId : string) (size : float) (color : string)
    (quantity : float) (prevCart : list CartItem) : list CartItem :=
  if PrimFloat.leb quantity 0 then removeFromCart productId size color prevCart
  else
    map (fun it =>
           if sameKey productId size color it
           then {| item := item it; quantity := quantity;
                   selectedSize := selectedSize it;
                   selectedColor := selectedColor it |}
           else it) prevCart.

(** [clearCart] *)
Definition clearCart (prevCart : list CartItem) : list CartItem :=
  [].

(** The line [a] does not answer to the key of the line [b]. *)
Definition apart (a b : CartItem) : Prop :=
  sameKey (id (item b)) (selectedSize b) (selectedColor b) a = false.

(** What the storefront and the cart panel can do to the cart. *)
Inductive CartAction :=
| Add (product : Product) (size : float) (color : string)
| Remove (productId : string) (size : float) (color : string)
| Update (productId : string) (size : float) (color : string) (quantity : float)
| Clear.

Definition act (cart : list CartItem) (a : CartAction) : list CartItem :=
  match a with
  | Add product size color => addToCart product size color cart
  | Remove productId size color => removeFromCart productId size color cart
  | Update productId size color quantity =>
      updateCartQuantity productId size color quantity cart
  | Clear => clearCart cart
  end.

(** The cart after a sequence of actions on the empty cart of [useState]. *)
Definition cartAfter (actions : list CartAction) : list CartItem :=
  fold_left act actions [].

(** The state update passed to [setWishlist] by [toggleWishlist]. *)
Definition toggleWishlist (product : Product) (prev : list Product) : list Product :=
  match List.find (fun p => String.eqb (id p) (id product)) prev with
  | Some _ => List.filter (fun p => negb (String.eqb (id p) (id product))) prev
  | None => prev ++ [product]
  end.

(** [isInWishlist] *)
Definition isInWishlist (wishlist : list Product) (productId : string) : bool :=
  existsb (fun p => String.eqb (id p) productId) wishlist.


End StoreFront.

(** ** ShoppingCartPanel.tsx: the three buttons of a cart line *)
Module CartPanel.
Import StoreFront.

(** The minus button:
    [onUpdateQuantity(item.id, item.selectedSize, item.selectedColor, item.quantity - 1)]. *)
Definition minus (it : CartItem) : CartAction :=
  Update (id (item it)) (selectedSize it) (selectedColor it) (quantity it - 1)%float.

(** The plus button, with [item.quantity + 1]. *)
Definition plus (it : CartItem) : CartAction :=
  Update (id (item it)) (selectedSize it) (selectedColor it) (quantity it + 1)%float.

(** The bin button: [onRemove(item.id, item.selectedSize, item.selectedColor)]. *)
Definition bin (it : CartItem) : CartAction :=
  Remove (id (item it)) (selectedSize it) (selectedColor it).

End CartPanel.

(** ** JSON values, as the server handlers see request bodies and records *)
Module Json.

Inductive value : Type :=
| VNull
| VBool (b : bool)
| VNum (x : float)
| VStr (s : string)
| VArr (l : list value)
| VObj (m : gmap string value).

(** [Boolean(v)]; [None] stands for [undefined]. *)
Definition truthy (v : option value) : bool :=
  match v with
  | None | Some VNull => false
  | Some (VBool b) => b
  | Some (VNum x) => JS.truthy_num x
  | Some (VStr s) => JS.truthy_str s
  | Some (VArr _) | Some (VObj _) => true
  end.

(** An object literal without repeated keys. *)
Definition object (fields : list (string * value)) : gmap string value :=
  list_to_map fields.

(** The own enumerable properties of an array or of a string: its elements
    under their decimal indices (a string is read character by character). *)
Definition indexed (l : list value) : gmap string value :=
  list_to_map (imap (fun i v => (pretty i, v)) l).

Definition chars (s : string) : list value :=
  map (fun c => VStr (String c EmptyString)) (String.list_ascii_of_string s).

(** What [{...v}] copies. *)
Definition spread (v : value) : gmap string value :=
  match v with
  | VObj m => m
  | VArr l => indexed l
  | VStr s => indexed (chars s)
  | VNull | VBool _ | VNum _ => ∅
  end.

(** [v.k] for a key [k] that is neither an index nor ["length"]: the outer
    [None] is the [TypeError] raised on [null]. *)
Definition prop (v : value) (k : string) : option (option value) :=
  match v with
  | VNull => None
  | VObj m => Some (m !! k)
  | VBool _ | VNum _ | VStr _ | VArr _ => Some None
  end.

(** A property of an object literal whose value may be [undefined]: such
    a property is dropped when the object is serialised. *)
Definition with_field (k : string) (v : option value) (o : gmap string value) :
    gmap string value :=
  match v with
  | Some x => <[k := x]> o
  | None => o
  end.

(** A number after [JSON.stringify] and the server's parse: [NaN] and the
    infinities are written as [null], [-0] as [0]. *)
Definition number (x : float) : value :=
  if PrimFloat.is_nan x || PrimFloat.is_infinity x then VNull
  else if PrimFloat.eqb x 0 then VNum 0
  else VNum x.

End Json.

(** A JSON object, and the contents of the key-value store: the object
    stored under each key. *)
Abbreviation JsonObject := (gmap string Json.value).
Abbreviation Store := (gmap string (gmap string Json.value)).

(** ** The key-value store behind the handlers *)
Module kv.
Import Json.

(** Modelled from the spec: kv_store.tsx is not among the sources; the
    specification describes it as an external key-value service addressed
    by string keys.  [get] reads the value stored under a key. *)
Definition get (key : string) (s : Store) :
    option (JsonObject) :=
  s !! key.

(** Modelled from the spec: kv_store.tsx is not among the sources; [set]
    stores a value under a key, replacing what was there. *)
Definition set (key : string) (v : JsonObject) (s : Store) : Store :=
  <[key := v]> s.

(** Modelled from the spec: kv_store.tsx is not among the sources; [del]
    removes a key. *)
Definition del (key : string) (s : Store) : Store :=
  delete key s.

(** Modelled from the spec: kv_store.tsx is not among the sources;
    [getByPrefix] is the prefix scan: the values stored under the keys that
    start with the prefix, in an order the service chooses. *)
Definition getByPrefix (pfx : string) (s : Store) :
    list JsonObject :=
  (map_to_list (filter (fun kv => Is_true (String.prefix pfx kv.1)) s)).*2.

End kv.

(** ** The server: routes and handlers *)
Module Server.
Import Json.

(** An uploaded file, as far as the upload handler reads it. *)
Record File := {
  file_name : string;
  file_type : string;
}.

(** What a handler reads from the request: the [Authorization] header, the
    body parsed by [c.req.json()] ([None] when parsing throws) and the
    ["file"] entry of [c.req.formData()] (outer [None] when that throws). *)
Record Request := {
  authorization : option string;
  json : option value;
  formFile : option (option File);
}.

(** [c.json(body, status)] *)
Record Response := {
  status : nat;
  body : value;
}.

(** The values the platform hands out while a request is served: the n-th
    result of [crypto.randomUUID()] and of [new Date().toISOString()]. *)
Record Env := {
  randomUUID : nat → string;
  toISOString : nat → string;
}.

(** [{ data: { user }, error }] as returned by [supabase.auth.getUser]. *)
Record AuthResult := {
  user : option value;
  authError : option string;
}.

(** The external services and runtime functions the handlers call: the
    identity provider, the object store, [new Date(x).getTime()] read as
    integer milliseconds ([None] is [NaN], an invalid date) and the string
    conversion of a template literal. *)
Class Services := {
  getUser : option string → AuthResult;
  createUser : option value → option value → option value → string + option value;
  upload : string → File → option string;
  createSignedUrl : string → Z → option string;
  getTime : option value → option Z;
  ToString : option value → string;
}.

(** The literal product tables of the source, left as parameters:
    [sampleProducts] of POST /init-sample-data, each entry without its
    [id], [createdAt] and [updatedAt], and [productsByCategory] of
    POST /categories/:categoryName/add-products. *)
Class Tables := {
  sampleProducts : list JsonObject;
  productsByCategory : string → option (list JsonObject);
}.

(** A handler: from the request, the platform's values and the store to
    the response and the store it leaves. *)
Abbreviation Handler := (Request → Env → Store → Response * Store).

Definition respond (st : nat) (fields : list (string * value)) : Response :=
  {| status := st; body := VObj (object fields) |}.

Definition error (st : nat) (msg : string) : Response :=
  respond st [("error", VStr msg)].

Definition objects (l : list JsonObject) : value :=
  VArr (VObj <$> l).

(** [`${v}`] *)
Definition template `{Services} (v : option value) : string :=
  match v with
  | Some (VStr s) => s
  | _ => ToString v
  end.

(** [c.req.header('Authorization')?.split(' ')[1]] *)
Definition accessToken (req : Request) : option string :=
  match authorization req with
  | Some h => JS.split " "%char h !! 1%nat
  | None => None
  end.

(** The negation of [!user || authError]. *)
Definition authorized `{Services} (req : Request) : bool :=
  let r := getUser (accessToken req) in
  match user r, authError r with
  | Some _, None => true
  | _, _ => false
  end.

(** The guard that opens every protected handler. *)
Definition protected `{Services}
    (k : Handler)
    (req : Request) (env : Env) (s : Store) :
    Response * Store :=
  if authorized req then k req env s else (error 401 "Unauthorized", s).

(** [await c.req.json()] inside the handler's [try]: a body that does not
    parse is answered by the [catch] with status 500. *)
Definition with_json (failure : string)
    (k : value → Store → Response * Store)
    (req : Request) (s : Store) : Response * Store :=
  match json req with
  | Some v => k v s
  | None => (error 500 failure, s)
  end.

(** POST /admin/signup *)
Definition post_admin_signup `{Services} (req : Request) (env : Env) (s : Store) :
    Response * Store :=
  with_json "Signup failed" (fun b s =>
    match prop b "email", prop b "password", prop b "name" with
    | Some email, Some password, Some name =>
        match createUser email password name with
        | inl message => (error 400 message, s)
        | inr u =>
            ({| status := 200;
                body := VObj (with_field "user" u (object [("success", VBool true)])) |}, s)
        end
    | _, _, _ => (error 500 "Signup failed", s)
    end) req s.

(** GET /products *)
Definition get_products (req : Request) (env : Env) (s : Store) :
    Response * Store :=
  (respond 200 [("products", objects (kv.getByPrefix "product:" s))], s).

(** GET /products/:id *)
Definition get_product (id : string) (req : Request) (env : Env) (s : Store) :
    Response * Store :=
  match kv.get ("product:" +:+ id) s with
  | Some product => (respond 200 [("product", VObj product)], s)
  | None => (error 404 "Product not found", s)
  end.

(** POST /products *)
Definition post_products `{Services} : Handler :=
  protected (fun req env =>
    with_json "Failed to create product" (fun product s =>
      let id := randomUUID env 0 in
      let newProduct :=
        <["updatedAt" := VStr (toISOString env 1)]>
          (<["createdAt" := VStr (toISOString env 0)]>
             (<["id" := VStr id]> (spread product))) in
      (respond 200 [("product", VObj newProduct)],
       kv.set ("product:" +:+ id) newProduct s)) req).

(** The record written by PUT /products/:id and PUT /orders/:id:
    [{ ...existing, ...updates, id, updatedAt: new Date().toISOString() }]. *)
Definition merged (existing : JsonObject) (updates : value) (id : string)
    (stamp : string) : JsonObject :=
  <["updatedAt" := VStr stamp]> (<["id" := VStr id]> (spread updates ∪ existing)).

(** PUT /products/:id *)
Definition put_product `{Services} (id : string) : Handler :=
  protected (fun req env =>
    with_json "Failed to update product" (fun updates s =>
      match kv.get ("product:" +:+ id) s with
      | None => (error 404 "Product not found", s)
      | Some existing =>
          let updatedProduct := merged existing updates id (toISOString env 0) in
          (respond 200 [("product", VObj updatedProduct)],
           kv.set ("product:" +:+ id) updatedProduct s)
      end) req).

(** DELETE /products/:id *)
Definition delete_product `{Services} (id : string) : Handler :=
  protected (fun req env s =>
    (respond 200 [("success", VBool true)], kv.del ("product:" +:+ id) s)).

(** [file.name.split('.').pop()] *)
Definition fileExt (f : File) : string :=
  default EmptyString (last (JS.split "."%char (file_name f))).

(** POST /upload-image *)
Definition post_upload_image `{Services} : Handler :=
  protected (fun req env s =>
    match formFile req with
    | None => (error 500 "Failed to upload image", s)
    | Some None => (error 400 "No file provided", s)
    | Some (Some f) =>
        let fileName := randomUUID env 0 +:+ "." +:+ fileExt f in
        match upload fileName f with
        | Some _ => (error 500 "Failed to upload image", s)
        | None =>
            let url :=
              match createSignedUrl fileName 315360000 with
              | Some u => if JS.truthy_str u then u else EmptyString
              | None => EmptyString
              end in
            (respond 200 [("imageUrl", VStr url)], s)
        end
    end).

(** [for (const o of l) await kv.set(`${pfx}${o.id}`, o)] *)
Definition set_all `{Services} (pfx : string) (l : list JsonObject) (s : Store) : Store :=
  foldl (fun s o => kv.set (pfx +:+ template (o !! "id")) o s) s l.

(** The key under which [set_all] files a record: [`${pfx}${o.id}`]. *)
Definition keyOf `{Services} (pfx : string) (o : JsonObject) : string :=
  pfx +:+ template (o !! "id").

(** An entry of a literal table with the [id], [createdAt] and [updatedAt]
    the literal computes for it, in the order of evaluation. *)
Definition stamped (env : Env) (i : nat) (o : JsonObject) : JsonObject :=
  <["updatedAt" := VStr (toISOString env (2 * i + 1))]>
    (<["createdAt" := VStr (toISOString env (2 * i))]>
       (<["id" := VStr (randomUUID env i)]> o)).

(** The [defaultLocations] literal of POST /init-sample-data. *)
Definition defaultLocations (env : Env) : list JsonObject :=
  imap (fun i '(name, cost, region) =>
          object [("id", VStr (randomUUID env i)); ("name", VStr name);
                  ("cost", VNum cost); ("region", VStr region)])
    [("Nairobi CBD", 0%float, "Nairobi"); ("Westlands", 0%float, "Nairobi");
     ("Karen", 0%float, "Nairobi"); ("Kilimani", 0%float, "Nairobi");
     ("Machakos Town", 0%float, "Machakos"); ("Athi River", 0%float, "Machakos");
     ("Kisumu", 500%float, "Kisumu"); ("Mombasa", 600%float, "Mombasa");
     ("Nakuru", 400%float, "Nakuru"); ("Eldoret", 550%float, "Eldoret")].

(** POST /init-sample-data: no guard. *)
Definition post_init_sample_data `{Services} `{Tables} (req : Request) (env : Env) (s : Store) :
    Response * Store :=
  let products := kv.getByPrefix "product:" s in
  if (length products =? 0)%nat then
    let samples := imap (stamped env) sampleProducts in
    (respond 200 [("success", VBool true);
                  ("count", VNum (JS.number (length samples)))],
     set_all "product:" samples s)
  else
    let deliveryLocations := kv.getByPrefix "delivery:" s in
    let s :=
      if (length deliveryLocations =? 0)%nat
      then set_all "delivery:" (defaultLocations env) s
      else s in
    (respond 200 [("success", VBool true); ("message", VStr "Products already exist")], s).

(** GET /delivery-locations *)
Definition get_delivery_locations (req : Request) (env : Env) (s : Store) :
    Response * Store :=
  (respond 200 [("locations", objects (kv.getByPrefix "delivery:" s))], s).

(** POST /delivery-locations *)
Definition post_delivery_locations `{Services} : Handler :=
  protected (fun req env =>
    with_json "Failed to create delivery location" (fun location s =>
      let id := randomUUID env 0 in
      let newLocation := <["id" := VStr id]> (spread location) in
      (respond 200 [("location", VObj newLocation)],
       kv.set ("delivery:" +:+ id) newLocation s)) req).

(** PUT /delivery-locations/:id *)
Definition put_delivery_location `{Services} (id : string) : Handler :=
  protected (fun req env =>
    with_json "Failed to update delivery location" (fun updates s =>
      match kv.get ("delivery:" +:+ id) s with
      | None => (error 404 "Delivery location not found", s)
      | Some existing =>
          let updatedLocation := <["id" := VStr id]> (spread updates ∪ existing) in
          (respond 200 [("location", VObj updatedLocation)],
           kv.set ("delivery:" +:+ id) updatedLocation s)
      end) req).

(** DELETE /delivery-locations/:id *)
Definition delete_delivery_location `{Services} (id : string) : Handler :=
  protected (fun req env s =>
    (respond 200 [("success", VBool true)], kv.del ("delivery:" +:+ id) s)).

(** The record written by POST /orders:
    [{ ...order, id, status: 'pending', createdAt: new Date().toISOString() }]. *)
Definition newOrder (order : value) (id stamp : string) : JsonObject :=
  <["createdAt" := VStr stamp]>
    (<["status" := VStr "pending"]> (<["id" := VStr id]> (spread order))).

(** POST /orders: no guard. *)
Definition post_orders (req : Request) (env : Env) (s : Store) :
    Response * Store :=
  with_json "Failed to create order" (fun order s =>
    let id := randomUUID env 0 in
    let o := newOrder order id (toISOString env 0) in
    (respond 200 [("order", VObj o)], kv.set ("order:" +:+ id) o s)) req s.

(** The payment record of the two payment routes; [extra] is the
    [phoneNumber] of the M-Pesa route. *)
Definition payment (paymentId method stamp : string) (orderId amount : option value)
    (extra : list (string * option value)) : JsonObject :=
  foldr (fun kv o => with_field kv.1 kv.2 o)
    (with_field "orderId" orderId
       (with_field "amount" amount
          (object [("id", VStr paymentId); ("method", VStr method);
                   ("status", VStr "pending"); ("createdAt", VStr stamp)])))
    extra.

(** POST /payment/mpesa: no guard. *)
Definition post_payment_mpesa (req : Request) (env : Env) (s : Store) :
    Response * Store :=
  with_json "Failed to initiate M-Pesa payment" (fun b s =>
    match prop b "phoneNumber", prop b "amount", prop b "orderId" with
    | Some phoneNumber, Some amount, Some orderId =>
        let paymentId := randomUUID env 0 in
        let p := payment paymentId "mpesa" (toISOString env 0) orderId amount
                   [("phoneNumber", phoneNumber)] in
        (respond 200
           [("success", VBool true); ("paymentId", VStr paymentId);
            ("message", VStr "M-Pesa STK push sent. Please enter your PIN on your phone.")],
         kv.set ("payment:" +:+ paymentId) p s)
    | _, _, _ => (error 500 "Failed to initiate M-Pesa payment", s)
    end) req s.

(** POST /payment/card: no guard. *)
Definition post_payment_card (req : Request) (env : Env) (s : Store) :
    Response * Store :=
  with_json "Failed to initiate card payment" (fun b s =>
    match prop b "cardDetails", prop b "amount", prop b "orderId" with
    | Some cardDetails, Some amount, Some orderId =>
        let paymentId := randomUUID env 0 in
        let p := payment paymentId "card" (toISOString env 0) orderId amount [] in
        (respond 200
           [("success", VBool true); ("paymentId", VStr paymentId);
            ("message", VStr "Card payment processing...")],
         kv.set ("payment:" +:+ paymentId) p s)
    | _, _, _ => (error 500 "Failed to initiate card payment", s)
    end) req s.

(** GET /payment/:paymentId *)
Definition get_payment (paymentId : string) (req : Request) (env : Env) (s : Store) :
    Response * Store :=
  match kv.get ("payment:" +:+ paymentId) s with
  | Some p => (respond 200 [("payment", VObj p)], s)
  | None => (error 404 "Payment not found", s)
  end.

(** [new Date(o.createdAt).getTime()] *)
Definition createdTime `{Services} (o : JsonObject) : option Z :=
  getTime (o !! "createdAt").

(** Whether the comparator of GET /orders,
    [new Date(b.createdAt).getTime() - new Date(a.createdAt).getTime()],
    is positive on [(a, b)].  The two times are integers of at most
    8.64e15 in absolute value, so the sign of their binary64 difference is
    the sign of their integer difference; with an invalid date the
    difference is [NaN], which the sort reads as [+0]. *)
Definition newerFirst `{Services} (a b : JsonObject) : bool :=
  match createdTime b, createdTime a with
  | Some tb, Some ta => (0 <? tb - ta)%Z
  | _, _ => false
  end.

(** [a] was created no earlier than [b]. *)
Definition notOlder `{Services} (a b : JsonObject) : Prop :=
  ∃ ta tb, createdTime a = Some ta ∧ createdTime b = Some tb ∧ (tb ≤ ta)%Z.

(** GET /orders *)
Definition get_orders `{Services} : Handler :=
  protected (fun req env s =>
    let orders := kv.getByPrefix "order:" s in
    let orders := JS.sort_by newerFirst orders in
    (respond 200 [("orders", objects orders)], s)).

(** PUT /orders/:id *)
Definition put_order `{Services} (id : string) : Handler :=
  protected (fun req env =>
    with_json "Failed to update order" (fun updates s =>
      match kv.get ("order:" +:+ id) s with
      | None => (error 404 "Order not found", s)
      | Some existing =>
          let updatedOrder := merged existing updates id (toISOString env 0) in
          (respond 200 [("order", VObj updatedOrder)],
           kv.set ("order:" +:+ id) updatedOrder s)
      end) req).

(** GET /categories *)
Definition get_categories (req : Request) (env : Env) (s : Store) :
    Response * Store :=
  (respond 200 [("categories", objects (kv.getByPrefix "category:" s))], s).

(** [allCategories.filter(cat => cat.active)] *)
Definition activeCategories (s : Store) :
    list JsonObject :=
  List.filter (fun cat => truthy (cat !! "active")) (kv.getByPrefix "category:" s).

(** GET /categories/active *)
Definition get_categories_active (req : Request) (env : Env) (s : Store) :
    Response * Store :=
  (respond 200 [("categories", objects (activeCategories s))], s).

(** POST /categories *)
Definition post_categories `{Services} : Handler :=
  protected (fun req env =>
    with_json "Failed to create category" (fun category s =>
      match prop category "id" with
      | None => (error 500 "Failed to create category", s)
      | Some given =>
          let id := if truthy given then given else Some (VStr (randomUUID env 0)) in
          let newCategory :=
            <["updatedAt" := VStr (toISOString env 0)]>
              (with_field "id" id (spread category)) in
          (respond 200 [("category", VObj newCategory)],
           kv.set ("category:" +:+ template id) newCategory s)
      end) req).

(** The record written by PUT /categories/:id/toggle:
    [{ ...existing, active: !existing.active, updatedAt: ... }]. *)
Definition toggled (existing : JsonObject) (stamp : string) : JsonObject :=
  <["updatedAt" := VStr stamp]>
    (<["active" := VBool (negb (truthy (existing !! "active")))]> existing).

(** PUT /categories/:id/toggle *)
Definition put_category_toggle `{Services} (id : string) : Handler :=
  protected (fun req env s =>
    match kv.get ("category:" +:+ id) s with
    | None => (error 404 "Category not found", s)
    | Some existing =>
        let updatedCategory := toggled existing (toISOString env 0) in
        (respond 200 [("category", VObj updatedCategory)],
         kv.set ("category:" +:+ id) updatedCategory s)
    end).

(** DELETE /categories/:id *)
Definition delete_category `{Services} (id : string) : Handler :=
  protected (fun req env s =>
    (respond 200 [("success", VBool true)], kv.del ("category:" +:+ id) s)).

(** The loop of POST /categories/:categoryName/add-products: the products
    added so far and the store. *)
Definition add_products (env : Env) (categoryProducts : list JsonObject)
    (s : Store) :
    list JsonObject * Store :=
  foldl (fun '(addedProducts, s) '(i, productData) =>
           let id := randomUUID env i in
           let newProduct :=
             <["updatedAt" := VStr (toISOString env (2 * i + 1))]>
               (<["createdAt" := VStr (toISOString env (2 * i))]>
                  (<["id" := VStr id]> productData)) in
           (addedProducts ++ [newProduct], kv.set ("product:" +:+ id) newProduct s))
    ([], s) (imap pair categoryProducts).

(** POST /categories/:categoryName/add-products *)
Definition post_category_add_products `{Services} `{Tables} (categoryName : string) : Handler :=
  protected (fun req env s =>
    match productsByCategory categoryName with
    | None => (error 400 "Invalid category name", s)
    | Some categoryProducts =>
        let '(addedProducts, s) := add_products env categoryProducts s in
        (respond 200 [("success", VBool true);
                      ("count", VNum (JS.number (length addedProducts)));
                      ("products", objects addedProducts)], s)
    end).

Definition strings (l : list string) : value :=
  VArr (VStr <$> l).

(** The [defaultCategories] literal of POST /init-categories. *)
Definition defaultCategories (env : Env) : list JsonObject :=
  imap (fun i '(name, description, subcategories) =>
          stamped env i
            (object [("name", VStr name); ("description", VStr description);
                     ("active", VBool true); ("subcategories", strings subcategories)]))
    [("Footwear", "Shoes, boots, sandals, and all types of footwear",
      ["Ballet Flats"; "Canvas Sneakers"; "Slip-On Flats"; "Loafers"; "Mules";
       "Espadrilles"; "Wellington Boots"; "Flip Flops"; "Pumps"; "Kitten Heels";
       "Stilettos"; "Block Heels"; "Ankle Strap Heels"; "Mary Janes"; "Oxfords";
       "Brogues"; "Gladiator Sandals"; "T-Strap Heels"; "Peep Toe Shoes";
       "Slingback Heels"; "Wedge Sandals"; "Chunky Heels"; "Platform Shoes";
       "Ankle Boots"; "Chelsea Boots"; "Combat Boots"; "Knee-High Boots";
       "Over-the-Knee Boots"; "Snow Boots";
       "Sneakers"; "Boat Shoes"; "Casual Boots"; "Derby Shoes"; "Monk Strap Shoes";
       "Cap Toe Shoes"; "Wingtip Shoes"; "Chukka Boots"; "Desert Boots"; "Work Boots";
       "Hiking Boots"; "Penny Loafers"; "Tassel Loafers"; "Athletic Shoes"]);
     ("Clothes", "Clothing for men, women, and children",
      ["T-Shirts"; "Shirts"; "Pants"; "Dresses"; "Jackets"; "Sweaters"; "Jeans"]);
     ("Essentials", "Daily essentials and necessities",
      ["Toiletries"; "Personal Care"; "Household Items"; "Stationery"]);
     ("Appliances", "Home and kitchen appliances",
      ["Kitchen Appliances"; "Home Appliances"; "Small Appliances"]);
     ("Electronics", "Electronic devices and gadgets",
      ["Phones"; "Laptops"; "Tablets"; "Accessories"; "Audio Devices"])].

(** POST /init-categories: no guard. *)
Definition post_init_categories `{Services} (req : Request) (env : Env) (s : Store) :
    Response * Store :=
  let categories := kv.getByPrefix "category:" s in
  if (length categories =? 0)%nat then
    let defaults := defaultCategories env in
    (respond 200 [("success", VBool true);
                  ("count", VNum (JS.number (length defaults)))],
     set_all "category:" defaults s)
  else
    (respond 200 [("success", VBool true);
                  ("message", VStr "Categories already exist")], s).

(** The routes registered on [app], with their path parameters. *)
Inductive Route :=
| PostAdminSignup
| GetProducts
| GetProduct (id : string)
| PostProducts
| PutProduct (id : string)
| DeleteProduct (id : string)
| PostUploadImage
| PostInitSampleData
| GetDeliveryLocations
| PostDeliveryLocations
| PutDeliveryLocation (id : string)
| DeleteDeliveryLocation (id : string)
| PostOrders
| PostPaymentMpesa
| PostPaymentCard
| GetPayment (paymentId : string)
| GetOrders
| PutOrder (id : string)
| GetCategories
| GetCategoriesActive
| PostCategories
| PutCategoryToggle (id : string)
| DeleteCategory (id : string)
| PostCategoryAddProducts (categoryName : string)
| PostInitCategories.

Inductive Method := GET | POST | PUT | DELETE.

(** [app.get], [app.post], [app.put] or [app.delete]. *)
Definition method (r : Route) : Method :=
  match r with
  | GetProducts | GetProduct _ | GetDeliveryLocations | GetPayment _ | GetOrders
  | GetCategories | GetCategoriesActive => GET
  | PostAdminSignup | PostProducts | PostUploadImage | PostInitSampleData
  | PostDeliveryLocations | PostOrders | PostPaymentMpesa | PostPaymentCard
  | PostCategories | PostCategoryAddProducts _ | PostInitCategories => POST
  | PutProduct _ | PutDeliveryLocation _ | PutOrder _ | PutCategoryToggle _ => PUT
  | DeleteProduct _ | DeleteDeliveryLocation _ | DeleteCategory _ => DELETE
  end.

(** A route that is not a read. *)
Definition mutating (r : Route) : bool :=
  match method r with
  | GET => false
  | POST | PUT | DELETE => true
  end.

(** The routes that write and whose handler does not open with the guard:
    signup, the two initialisation routes, order creation and the two
    payment routes. *)
Definition unguarded (r : Route) : bool :=
  match r with
  | PostAdminSignup | PostInitSampleData | PostInitCategories
  | PostOrders | PostPaymentMpesa | PostPaymentCard => true
  | _ => false
  end.

(** The key prefixes under which the handler of a route calls [kv.set] or
    [kv.del]. *)
Definition namespaces (r : Route) : list string :=
  match r with
  | PostProducts | PutProduct _ | DeleteProduct _ | PostCategoryAddProducts _ =>
      ["product:"]
  | PostInitSampleData => ["product:"; "delivery:"]
  | PostDeliveryLocations | PutDeliveryLocation _ | DeleteDeliveryLocation _ =>
      ["delivery:"]
  | PostOrders | PutOrder _ => ["order:"]
  | PostPaymentMpesa | PostPaymentCard => ["payment:"]
  | PostCategories | PutCategoryToggle _ | DeleteCategory _ | PostInitCategories =>
      ["category:"]
  | PostAdminSignup | GetProducts | GetProduct _ | PostUploadImage
  | GetDeliveryLocations | GetPayment _ | GetOrders | GetCategories
  | GetCategoriesActive => []
  end.

(** Every stored order has a [createdAt] that is a date. *)
Definition datedOrders `{Services} (s : Store) : Prop :=
  Forall (fun o => is_Some (createdTime o)) (kv.getByPrefix "order:" s).

(** The handler registered for a route. *)
Definition handle `{Services} `{Tables} (r : Route) : Handler :=
  match r with
  | PostAdminSignup => post_admin_signup
  | GetProducts => get_products
  | GetProduct id => get_product id
  | PostProducts => post_products
  | PutProduct id => put_product id
  | DeleteProduct id => delete_product id
  | PostUploadImage => post_upload_image
  | PostInitSampleData => post_init_sample_data
  | GetDeliveryLocations => get_delivery_locations
  | PostDeliveryLocations => post_delivery_locations
  | PutDeliveryLocation id => put_delivery_location id
  | DeleteDeliveryLocation id => delete_delivery_location id
  | PostOrders => post_orders
  | PostPaymentMpesa => post_payment_mpesa
  | PostPaymentCard => post_payment_card
  | GetPayment paymentId => get_payment paymentId
  | GetOrders => get_orders
  | PutOrder id => put_order id
  | GetCategories => get_categories
  | GetCategoriesActive => get_categories_active
  | PostCategories => post_categories
  | PutCategoryToggle id => put_category_toggle id
  | DeleteCategory id => delete_category id
  | PostCategoryAddProducts categoryName => post_category_add_products categoryName
  | PostInitCategories => post_init_categories
  end.

End Server.

(** ** App.tsx: the category rows of the admin console *)
Module Admin.
Import Json Server.

Record Category := {
  id : string;
  name : string;
  description : string;
  active : bool;
  subcategories : list string;
  createdAt : string;
  updatedAt : string;
}.

(** The request sent by [toggleCategory] and [deleteCategory]: only the
    admin's bearer token. *)
Definition bearer (accessToken : string) : Request :=
  {| authorization := Some ("Bearer " +:+ accessToken); json := None; formFile := None |}.

(** [deleteCategory(id)]: nothing is sent unless the [confirm] dialog is
    accepted; the effect on the store is that of the DELETE request. *)
Definition deleteCategory `{Services} `{Tables} (accessToken id : string) (confirmed : bool)
    (env : Env) (s : Store) : Store :=
  if confirmed then (handle (DeleteCategory id) (bearer accessToken) env s).2 else s.

(** A click on the delete button of a row,
    [<Button onClick={() => deleteCategory(category.id)} disabled={category.active}>]:
    a disabled button does not run its click handler. *)
Definition clickDelete `{Services} `{Tables} (accessToken : string) (category : Category)
    (confirmed : bool) (env : Env) (s : Store) : Store :=
  if active category then s else deleteCategory accessToken (id category) confirmed env s.

(** ** OrderTracking.tsx and the category form of App.tsx *)

(** A request with the admin's bearer token and a JSON body. *)
Definition bearerWith (accessToken : string) (b : value) : Request :=
  {| authorization := Some ("Bearer " +:+ accessToken); json := Some b; formFile := None |}.

(** [updateOrderStatus(orderId, newStatus)]: the PUT request with the body
    [{ status: newStatus }]. *)
Definition updateOrderStatus `{Services} `{Tables} (accessToken orderId newStatus : string)
    (env : Env) (s : Store) : Response * Store :=
  handle (PutOrder orderId)
    (bearerWith accessToken (VObj (object [("status", VStr newStatus)]))) env s.





End Admin.

(** ** The storefront as it is loaded from the server *)
Module Shop.
Import Json Server.

(** How the client reads the JSON it receives: [data.products] and
    [data.categories] are used at the types [Product[]] and [Category[]]
    without any check. *)
Class View := {
  asProduct : JsonObject → StoreFront.Product;
  asCategory : JsonObject → StoreFront.Category;
}.

(** [data[k] || []] for a response whose field [k] is an array of objects. *)
Definition array_field (data : value) (k : string) : list JsonObject :=
  match data with
  | VObj m =>
      match m !! k with
      | Some (VArr l) => omap (fun v => match v with VObj o => Some o | _ => None end) l
      | _ => []
      end
  | _ => []
  end.

(** [response.ok] *)
Definition ok (r : Response) : bool :=
  (200 <=? status r)%nat && (status r <=? 299)%nat.

(** [loadProducts]: the list given to [setProducts]. *)
Definition loadProducts `{View} (req : Request) (env : Env)
    (s : Store) : list StoreFront.Product :=
  let response := (get_products req env s).1 in
  if ok response then asProduct <$> array_field (body response) "products" else [].

(** [loadCategories]: the list given to [setCategories]. *)
Definition loadCategories `{View} (req : Request) (env : Env)
    (s : Store) : list StoreFront.Category :=
  let response := (get_categories_active req env s).1 in
  if ok response then asCategory <$> array_field (body response) "categories" else [].

(** The product grid once both lists are loaded. *)
Definition storefront `{View} `{StoreFront.Runtime} (req : Request) (env : Env)
    (s : Store) (searchQuery categoryFilter sortBy : string)
    (priceRange : float * float) : list StoreFront.Product :=
  StoreFront.filterAndSortProducts (loadProducts req env s) (loadCategories req env s)
    searchQuery categoryFilter sortBy priceRange.

End Shop.

(** ** CheckoutDialog.tsx: the steps of the dialog *)
Module Wizard.
Import Json Server.

Inductive Step := delivery | payment | processing | success.

Inductive Method := mpesa | card.

(** The delivery details, the payment details and the state of the
    dialog: the values of its [useState] hooks. *)
Record Delivery := {
  selectedLocation : option Checkout.DeliveryLocation;
  customerName : string;
  customerEmail : string;
  customerPhone : string;
  deliveryAddress : string;
}.

Record Payment := {
  paymentMethod : Method;
  mpesaPhone : string;
  cardNumber : string;
  cardExpiry : string;
  cardCvc : string;
  cardName : string;
}.

Record State := {
  step : Step;
  locations : list Checkout.DeliveryLocation;
  details : Delivery;
  pay : Payment;
}.

(** What the dialog takes from its surroundings: the public key of
    info.ts and the JSON text of the cart lines and of a delivery
    location, which carry every field they were loaded with. *)
Class Client := {
  publicAnonKey : string;
  cartJson : list Checkout.CartItem → value;
  locationJson : Checkout.DeliveryLocation → value;
}.

Definition emptyDelivery : Delivery :=
  {| selectedLocation := None; customerName := ""; customerEmail := "";
     customerPhone := ""; deliveryAddress := "" |}.

Definition emptyPayment : Payment :=
  {| paymentMethod := mpesa; mpesaPhone := ""; cardNumber := ""; cardExpiry := "";
     cardCvc := ""; cardName := "" |}.

(** The initial values of the hooks. *)
Definition initial : State :=
  {| step := delivery; locations := []; details := emptyDelivery; pay := emptyPayment |}.

Definition setStep (x : Step) (st : State) : State :=
  {| step := x; locations := locations st; details := details st; pay := pay st |}.


Definition setPay (p : Payment) (st : State) : State :=
  {| step := step st; locations := locations st; details := details st; pay := p |}.




(** The two tests that open [handlePayment]. *)
Definition paymentGiven (p : Payment) : bool :=
  match paymentMethod p with
  | mpesa => JS.truthy_str (mpesaPhone p)
  | card =>
      JS.truthy_str (cardNumber p) && JS.truthy_str (cardExpiry p)
      && JS.truthy_str (cardCvc p) && JS.truthy_str (cardName p)
  end.

Definition anon `{Client} (b : value) : Request :=
  {| authorization := Some ("Bearer " +:+ publicAnonKey); json := Some b;
     formFile := None |}.

(** The body of the POST /orders request. *)
Definition orderBody `{Client} (cart : list Checkout.CartItem) (d : Delivery) : value :=
  VObj (object
    [("customerName", VStr (customerName d));
     ("customerEmail", VStr (customerEmail d));
     ("customerPhone", VStr (customerPhone d));
     ("deliveryAddress", VStr (deliveryAddress d));
     ("deliveryLocation",
      match selectedLocation d with Some l => locationJson l | None => VNull end);
     ("cart", cartJson cart);
     ("subtotal", number (Checkout.subtotal cart));
     ("deliveryCost", number (Checkout.deliveryCost (selectedLocation d)));
     ("tax", number (Checkout.tax cart));
     ("total", number (Checkout.total cart (selectedLocation d)))]).

(** The body of the payment request, with [orderId: order.id]. *)
Definition paymentBody (cart : list Checkout.CartItem) (d : Delivery) (p : Payment)
    (orderId : option value) : value :=
  let amount := number (Checkout.total cart (selectedLocation d)) in
  VObj (with_field "orderId" orderId
    match paymentMethod p with
    | mpesa => object [("phoneNumber", VStr (mpesaPhone p)); ("amount", amount)]
    | card =>
        object [("cardDetails",
                 VObj (object [("number", VStr (cardNumber p));
                               ("expiry", VStr (cardExpiry p));
                               ("cvc", VStr (cardCvc p));
                               ("name", VStr (cardName p))]));
                ("amount", amount)]
    end).

Definition paymentRoute (p : Payment) : Route :=
  match paymentMethod p with
  | mpesa => PostPaymentMpesa
  | card => PostPaymentCard
  end.

(** The [method] that the route of [paymentRoute] writes into its record. *)
Definition methodName (m : Method) : string :=
  match m with
  | mpesa => "mpesa"
  | card => "card"
  end.

(** [order.id] for [const { order } = await orderResponse.json()]; the
    outer [None] is the [TypeError] of reading [id] off a missing order. *)
Definition orderIdOf (data : value) : option (option value) :=
  match data with
  | VObj m =>
      match m !! "order" with
      | Some order => prop order "id"
      | None => None
      end
  | _ => None
  end.

(** [handlePayment]: the state and the store once the two requests are
    answered.  A failed request or an exception ends in the [catch], which
    goes back to the payment step. *)
Definition handlePayment `{Services} `{Tables} `{Client} (cart : list Checkout.CartItem)
    (orderEnv paymentEnv : Env) (st : State) (s : Store) : State * Store :=
  if negb (paymentGiven (pay st)) then (st, s)
  else
    let '(orderResponse, s) :=
      handle PostOrders (anon (orderBody cart (details st))) orderEnv s in
    if negb (Shop.ok orderResponse) then (setStep payment st, s)
    else
      match orderIdOf (body orderResponse) with
      | None => (setStep payment st, s)
      | Some orderId =>
          let '(paymentResponse, s) :=
            handle (paymentRoute (pay st))
              (anon (paymentBody cart (details st) (pay st) orderId)) paymentEnv s in
          if negb (Shop.ok paymentResponse) then (setStep payment st, s)
          else (setStep success st, s)
      end.








End Wizard.

(** ** Concrete services and records for the worked examples *)
Module Demo.
Import Json Server.

(** An identity provider that knows one session, ["admin-token"], and a
    clock that reads two ISO dates. *)
#[local] Instance services : Services := {|
  getUser t :=
    match t with
    | Some "admin-token" => {| user := Some (VStr "admin"); authError := None |}
    | _ => {| user := None; authError := Some "invalid JWT" |}
    end;
  createUser _ _ _ := inl "signups are closed";
  upload _ _ := Some "bucket not found";
  createSignedUrl _ _ := None;
  getTime v :=
    match v with
    | Some (VStr "2024-01-01T00:00:00.000Z") => Some 1704067200000%Z
    | Some (VStr "2024-01-02T00:00:00.000Z") => Some 1704153600000%Z
    | _ => None
    end;
  ToString _ := "undefined";
|}.

#[local] Instance tables : Tables := {|
  sampleProducts := [];
  productsByCategory _ := None;
|}.

(** A table with the first sample product, and a [trim] for text without
    surrounding white space. *)
#[local] Instance catalogue : Tables := {|
  sampleProducts :=
    [object [("name", VStr "Urban Runner Pro"); ("price", VNum 8500);
             ("category", VStr "Athletic Shoes"); ("stock", VNum 50);
             ("featured", VBool true)]];
  productsByCategory _ := None;
|}.


(** A client whose cart lines and delivery locations carry the fields of
    their interfaces. *)
#[local] Instance client : Wizard.Client := {|
  Wizard.publicAnonKey := "public-anon-key";
  Wizard.cartJson cart :=
    VArr (map (fun it =>
                 VObj (object [("id", VStr (Checkout.id it));
                               ("name", VStr (Checkout.name it));
                               ("price", number (Checkout.price it));
                               ("quantity", number (Checkout.quantity it));
                               ("selectedSize", number (Checkout.selectedSize it));
                               ("selectedColor", VStr (Checkout.selectedColor it))]))
            cart);
  Wizard.locationJson l :=
    VObj (object [("id", VStr (Checkout.loc_id l)); ("name", VStr (Checkout.loc_name l));
                  ("cost", number (Checkout.cost l));
                  ("region", VStr (Checkout.region l))]);
|}.

Definition env : Env :=
  {| randomUUID n := "uuid-" +:+ pretty n;
     toISOString _ := "2024-01-02T00:00:00.000Z" |}.

Definition admin (b : option value) : Request :=
  {| authorization := Some "Bearer admin-token"; json := b; formFile := None |}.

Definition anonymous (b : option value) : Request :=
  {| authorization := Some "Bearer public-anon-key"; json := b; formFile := None |}.

(** A runtime for ASCII text in lower case, and the reading of stored
    records at the client's types. *)
#[local] Instance runtime : StoreFront.Runtime := {|
  StoreFront.toLowerCase x := x;
  StoreFront.localeCompare _ _ := 0%float;
|}.

Definition str (v : option value) : string :=
  match v with
  | Some (VStr x) => x
  | _ => EmptyString
  end.

Definition num (v : option value) : float :=
  match v with
  | Some (VNum x) => x
  | _ => nan
  end.

#[local] Instance view : Shop.View := {|
  Shop.asProduct o :=
    {| StoreFront.id := str (o !! "id"); StoreFront.name := str (o !! "name");
       StoreFront.description := str (o !! "description");
       StoreFront.price := num (o !! "price");
       StoreFront.category := str (o !! "category");
       StoreFront.sizes := []; StoreFront.colors := [];
       StoreFront.imageUrl := str (o !! "imageUrl");
       StoreFront.stock := num (o !! "stock");
       StoreFront.featured := truthy (o !! "featured") |};
  Shop.asCategory o :=
    {| StoreFront.cat_id := str (o !! "id"); StoreFront.cat_name := str (o !! "name");
       StoreFront.cat_description := str (o !! "description");
       StoreFront.active := truthy (o !! "active");
       StoreFront.subcategories :=
         match o !! "subcategories" with
         | Some (VArr l) =>
             Some (omap (fun v => match v with VStr x => Some x | _ => None end) l)
         | _ => None
         end |};
|}.

(** Stored records: the category "Test" of the specification's scenario,
    a category with one subcategory, a product under it, and an order. *)
Definition testCategory (isActive : bool) : JsonObject :=
  object [("id", VStr "c1"); ("name", VStr "Test"); ("description", VStr "A test");
          ("active", VBool isActive); ("subcategories", VArr []);
          ("updatedAt", VStr "2024-01-01T00:00:00.000Z")].

Definition footwear : JsonObject :=
  object [("id", VStr "c2"); ("name", VStr "Footwear");
          ("description", VStr "Shoes and boots"); ("active", VBool true);
          ("subcategories", VArr [VStr "Casual Boots"]);
          ("updatedAt", VStr "2024-01-01T00:00:00.000Z")].

Definition boots : JsonObject :=
  object [("id", VStr "7"); ("name", VStr "Heritage Leather Boots");
          ("price", VNum 12500); ("category", VStr "Casual Boots");
          ("featured", VBool false); ("updatedAt", VStr "2024-01-01T00:00:00.000Z")].

Definition order (id stamp : string) : JsonObject :=
  object [("id", VStr id); ("status", VStr "pending"); ("createdAt", VStr stamp)].

(** The same category as the console holds it. *)
Definition testRow (isActive : bool) : Admin.Category :=
  {| Admin.id := "c1"; Admin.name := "Test"; Admin.description := "A test";
     Admin.active := isActive; Admin.subcategories := [];
     Admin.createdAt := "2024-01-01T00:00:00.000Z";
     Admin.updatedAt := "2024-01-01T00:00:00.000Z" |}.


Definition mpesaNumber : Wizard.Payment :=
  {| Wizard.paymentMethod := Wizard.mpesa; Wizard.mpesaPhone := "0700000000";
     Wizard.cardNumber := ""; Wizard.cardExpiry := ""; Wizard.cardCvc := "";
     Wizard.cardName := "" |}.

(** The clock and the identifiers of a second request. *)
Definition env2 : Env :=
  {| randomUUID n := "uuid-b" +:+ pretty n;
     toISOString _ := "2024-01-02T00:00:01.000Z" |}.


(** A store with the category "Footwear" and a pair of boots under it. *)
Definition shop : Store :=
  <["category:c2" := footwear]> (<["product:7" := boots]> ∅).

End Demo.

(** * Properties *)

(** ** Checkout totals *)

Lemma subtotal_from (cart : list Checkout.CartItem) (acc : float) :
  fold_left (fun sum item => sum + Checkout.price item * Checkout.quantity item)%float cart acc
  = fold_left PrimFloat.add
      (map (fun item => Checkout.price item * Checkout.quantity item)%float cart) acc.
Proof.
  revert acc. induction cart as [|item cart IH]; intros acc; simpl; [reflexivity|].
  apply IH.
Qed.

(** C1: for every cart and every selected delivery location, the checkout
    subtotal is the left-to-right sum of price times quantity over the line
    items, the tax is 0.08 times the subtotal and the total is
    subtotal + deliveryCost + tax, all in binary64 arithmetic; for the cart
    [{price: 1000, qty: 2}] with a delivery cost of 0 this gives 2000, 160
    and 2160. *)
Theorem checkout_totals (cart : list Checkout.CartItem)
    (selectedLocation : option Checkout.DeliveryLocation) :
  Checkout.subtotal cart
    = JS.sum (map (fun item => Checkout.price item * Checkout.quantity item)%float cart)
  ∧ Checkout.tax cart = (Checkout.subtotal cart * 0.08)%float
  ∧ Checkout.total cart selectedLocation
    = (Checkout.subtotal cart + Checkout.deliveryCost selectedLocation
       + Checkout.tax cart)%float
  ∧ Checkout.subtotal [Checkout.line 1000 2] = 2000%float
  ∧ Checkout.deliveryCost (Some (Checkout.zone 0)) = 0%float
  ∧ Checkout.tax [Checkout.line 1000 2] = 160%float
  ∧ Checkout.total [Checkout.line 1000 2] (Some (Checkout.zone 0)) = 2160%float.
Proof.
  split; [apply subtotal_from|].
  repeat split; reflexivity.
Qed.

(** ** The sort of the runtime *)
Section Sort.
Context {A : Type} (gt : A → A → bool).

Lemma insert_perm (x : A) (l : list A) : JS.insert gt x l ≡ₚ x :: l.
Proof.
  induction l as [|y l IH]; simpl; [done|].
  destruct (gt x y); [|done].
  rewrite IH. apply Permutation_swap.
Qed.

Lemma sort_by_perm (l : list A) : JS.sort_by gt l ≡ₚ l.
Proof.
  induction l as [|x l IH]; simpl; [done|].
  fold (JS.sort_by gt l). by rewrite insert_perm, IH.
Qed.

(** Where the comparator agrees with a transitive relation [R] on the
    elements at hand, the result is sorted for [R]. *)
Lemma insert_sorted (R : relation A) (P : A → Prop) (x : A) (l : list A) :
  (∀ a b, P a → P b → gt a b = false → R a b) →
  (∀ a b, P a → P b → gt a b = true → R b a) →
  (∀ a b c, R a b → R b c → R a c) →
  P x → Forall P l →
  StronglySorted R l → StronglySorted R (JS.insert gt x l).
Proof.
  intros Hle Hgt Htrans Hx HP Hsorted.
  induction Hsorted as [|y l Hs IH Hy]; simpl.
  - repeat constructor.
  - apply Forall_cons in HP as [HPy HPl].
    destruct (gt x y) eqn:Hxy.
    + constructor; [by apply IH|].
      rewrite insert_perm. constructor; [by apply Hgt|done].
    + constructor; [by constructor|].
      constructor; [by apply Hle|].
      eapply Forall_impl; [exact Hy|].
      intros z Hyz. eapply Htrans; [|exact Hyz]. by apply Hle.
Qed.

Lemma sort_by_sorted (R : relation A) (P : A → Prop) (l : list A) :
  (∀ a b, P a → P b → gt a b = false → R a b) →
  (∀ a b, P a → P b → gt a b = true → R b a) →
  (∀ a b c, R a b → R b c → R a c) →
  Forall P l → StronglySorted R (JS.sort_by gt l).
Proof.
  intros Hle Hgt Htrans HP.
  induction HP as [|x l Hx HP IH]; simpl; [constructor|].
  fold (JS.sort_by gt l).
  eapply insert_sorted; eauto.
  by rewrite sort_by_perm.
Qed.

End Sort.

(** ** The "featured" sort *)
Section Featured.
Import StoreFront.

Lemma insert_featured (x : Product) (l : list Product) :
  featured x = true →
  JS.insert (fun a b => PrimFloat.ltb 0 (featuredFirst a b)) x l = x :: l.
Proof.
  intros Hx. destruct l as [|y l]; simpl; [done|].
  unfold featuredFirst. rewrite Hx. by destruct (featured y).
Qed.

Lemma insert_plain (x : Product) (front back : list Product) :
  featured x = false →
  Forall (fun p => featured p = true) front →
  Forall (fun p => featured p = false) back →
  JS.insert (fun a b => PrimFloat.ltb 0 (featuredFirst a b)) x (front ++ back)
  = front ++ x :: back.
Proof.
  intros Hx Hfront Hback.
  induction Hfront as [|y front Hy _ IH]; simpl.
  - destruct Hback as [|z back Hz _]; simpl; [done|].
    unfold featuredFirst. by rewrite Hx, Hz.
  - unfold featuredFirst at 1. rewrite Hx, Hy. simpl. by rewrite IH.
Qed.

Lemma filter_featured_all (l : list Product) :
  Forall (fun p => featured p = true) (List.filter featured l).
Proof.
  apply Forall_forall. intros p Hp.
  apply list_elem_of_In in Hp. by apply filter_In in Hp as [_ ?].
Qed.

Lemma filter_plain_all (l : list Product) :
  Forall (fun p => featured p = false) (List.filter plain l).
Proof.
  apply Forall_forall. intros p Hp.
  apply list_elem_of_In in Hp. apply filter_In in Hp as [_ Hp].
  unfold plain in Hp. by destruct (featured p).
Qed.

Lemma sort_featured (l : list Product) :
  JS.sort featuredFirst l = List.filter featured l ++ List.filter plain l.
Proof.
  unfold JS.sort. induction l as [|x l IH]; simpl; [done|].
  fold (JS.sort_by (fun a b => PrimFloat.ltb 0 (featuredFirst a b)) l).
  rewrite IH. unfold plain at 2. destruct (featured x) eqn:Hx; simpl.
  - by apply insert_featured.
  - apply insert_plain; auto using filter_featured_all, filter_plain_all.
Qed.

Lemma filter_featured_app (front back : list Product) :
  Forall (fun p => featured p = true) front →
  Forall (fun p => featured p = false) back →
  List.filter featured (front ++ back) = front
  ∧ List.filter plain (front ++ back) = back.
Proof.
  intros Hfront Hback. rewrite !List.filter_app. split.
  - rewrite (forallb_filter_id featured front).
    + assert (List.filter featured back = []) as ->; [|by rewrite app_nil_r].
      induction Hback as [|z back Hz _ IH]; simpl; [done|]. by rewrite Hz.
    + apply forallb_forall. intros p Hp. apply list_elem_of_In in Hp.
      revert p Hp. by apply Forall_forall.
  - assert (List.filter plain front = []) as ->.
    { induction Hfront as [|z front Hz _ IH]; simpl; [done|].
      unfold plain at 1. by rewrite Hz. }
    simpl. apply forallb_filter_id, forallb_forall.
    intros p Hp. apply list_elem_of_In in Hp. revert p Hp. apply Forall_forall.
    eapply Forall_impl; [exact Hback|]. intros p Hp. unfold plain. by rewrite Hp.
Qed.

(** Any arrangement with the featured products in front that keeps the
    relative order of both groups is the same list, whichever stable sort
    produced it. *)
Lemma stable_partition_unique (l out front back : list Product) :
  out = front ++ back →
  Forall (fun p => featured p = true) front →
  Forall (fun p => featured p = false) back →
  List.filter featured out = List.filter featured l →
  List.filter plain out = List.filter plain l →
  out = List.filter featured l ++ List.filter plain l.
Proof.
  intros -> Hfront Hback Hf Hp.
  destruct (filter_featured_app _ _ Hfront Hback) as [Hf' Hp'].
  congruence.
Qed.

End Featured.

(** C8: the "featured" sort mode is a stable partition of the list it
    sorts: the output is the featured products in their input order
    followed by the others in their input order, so every featured product
    stands before every other product and both groups keep their relative
    order. *)
Theorem featured_sort_stable_partition `{StoreFront.Runtime}
    (products : list StoreFront.Product) :
  let output := StoreFront.sortProducts "featured" products in
  (∀ all categories searchQuery categoryFilter priceRange,
      StoreFront.filterAndSortProducts all categories searchQuery categoryFilter
        "featured" priceRange
      = StoreFront.sortProducts "featured"
          (StoreFront.filterProducts all categories searchQuery categoryFilter priceRange))
  ∧ output = List.filter StoreFront.featured products
             ++ List.filter StoreFront.plain products
  ∧ List.filter StoreFront.featured output = List.filter StoreFront.featured products
  ∧ List.filter StoreFront.plain output = List.filter StoreFront.plain products
  ∧ (∀ i j p q,
        output !! i = Some p → output !! j = Some q →
        StoreFront.featured p = true → StoreFront.featured q = false → i < j).
Proof.
  assert (StoreFront.sortProducts "featured" products
          = List.filter StoreFront.featured products
            ++ List.filter StoreFront.plain products) as Hout
    by apply sort_featured.
  pose proof (filter_featured_all products) as Hfront.
  pose proof (filter_plain_all products) as Hback.
  destruct (filter_featured_app _ _ Hfront Hback) as [Hf Hp].
  simpl. rewrite Hout. repeat split; [done..|].
  intros i j p q Hi Hj Hfp Hfq.
  apply lookup_app_Some in Hi as [Hi|[_ Hi]]; last first.
  { apply list_elem_of_lookup_2 in Hi.
    rewrite Forall_forall in Hback. specialize (Hback _ Hi). congruence. }
  apply lookup_app_Some in Hj as [Hj|[Hj _]].
  { apply list_elem_of_lookup_2 in Hj.
    rewrite Forall_forall in Hfront. specialize (Hfront _ Hj). congruence. }
  apply lookup_lt_Some in Hi. lia.
Qed.

(** ** The cart *)
Section Cart.
Import StoreFront.

(** With a line of the same key in the cart, every such line gets one more
    unit and the cart keeps its length. *)
Lemma addToCart_existing (product : Product) (size : float) (color : string)
    (prevCart : list CartItem) :
  existsb (sameLine product size color) prevCart = true →
  addToCart product size color prevCart
  = map (fun it =>
           if sameLine product size color it
           then {| item := item it; quantity := (quantity it + 1)%float;
                   selectedSize := selectedSize it;
                   selectedColor := selectedColor it |}
           else it) prevCart
  ∧ length (addToCart product size color prevCart) = length prevCart.
Proof.
  intros Hex. unfold addToCart.
  destruct (List.find _ prevCart) as [existingItem|] eqn:Hfind.
  - split; [done|]. by rewrite length_map.
  - apply existsb_exists in Hex as (it & Hin & Hit).
    by rewrite (find_none _ _ Hfind it Hin) in Hit.
Qed.

(** Without such a line, a new line of quantity 1 is appended. *)
Lemma addToCart_new (product : Product) (size : float) (color : string)
    (prevCart : list CartItem) :
  existsb (sameLine product size color) prevCart = false →
  addToCart product size color prevCart
  = prevCart ++ [ {| item := product; quantity := 1%float;
                     selectedSize := size; selectedColor := color |} ].
Proof.
  intros Hex. unfold addToCart.
  destruct (List.find _ prevCart) as [existingItem|] eqn:Hfind; [|done].
  apply find_some in Hfind as [Hin Hit].
  assert (existsb (sameLine product size color) prevCart = true) as Htrue
    by (apply existsb_exists; eauto).
  congruence.
Qed.

(** For a size that [===] itself, that is any size but [NaN], adding the
    same product, size and colour twice to the empty cart gives one line of
    quantity 2. *)
Lemma addToCart_twice (product : Product) (size : float) (color : string) :
  PrimFloat.eqb size size = true →
  addToCart product size color (addToCart product size color [])
  = [ {| item := product; quantity := 2%float;
         selectedSize := size; selectedColor := color |} ].
Proof.
  intros Hsize. unfold addToCart; simpl. unfold sameLine; simpl.
  by rewrite !String.eqb_refl, Hsize.
Qed.

End Cart.

(** C2: [parseInt] of a size label such as "M" is [NaN], and [NaN === NaN]
    is false; adding the same T-shirt with that size and the same colour
    twice to the empty cart gives two lines of quantity 1 each instead of
    one line of quantity 2. *)
Theorem addToCart_twice_NaN_size :
  StoreFront.addToCart StoreFront.tshirt nan "White"
    (StoreFront.addToCart StoreFront.tshirt nan "White" [])
  = [ {| StoreFront.item := StoreFront.tshirt; StoreFront.quantity := 1%float;
         StoreFront.selectedSize := nan; StoreFront.selectedColor := "White" |};
      {| StoreFront.item := StoreFront.tshirt; StoreFront.quantity := 1%float;
         StoreFront.selectedSize := nan; StoreFront.selectedColor := "White" |} ].
Proof. reflexivity. Qed.

(** ** Which products the storefront shows *)
Section Visibility.
Import StoreFront.
Context `{Runtime}.

Lemma array_includes_In (xs : list string) (x : string) :
  JS.array_includes xs x = true ↔ In x xs.
Proof.
  unfold JS.array_includes. rewrite existsb_exists. split.
  - intros (y & Hy & Hxy). apply String.eqb_eq in Hxy. by subst.
  - intros Hx. exists x. split; [done|]. apply String.eqb_refl.
Qed.

(** A category string passes the first filter exactly when some loaded
    category offers it. *)
Lemma listed_iff (categories : list Category) (x : string) :
  JS.array_includes (activeSubcategories categories) x = true
  ↔ ∃ c, In c categories ∧ In x (subcategoriesOrName c).
Proof.
  rewrite array_includes_In. unfold activeSubcategories. apply in_flat_map.
Qed.

Lemma sortProducts_perm (sortBy : string) (l : list Product) :
  sortProducts sortBy l ≡ₚ l.
Proof.
  unfold sortProducts, JS.sort.
  repeat case_match; auto using sort_by_perm.
Qed.

(** What [filterAndSortProducts] keeps with an empty search query and the
    category filter "all". *)
Lemma storefront_shows (products : list Product) (categories : list Category)
    (sortBy : string) (priceRange : float * float) (p : Product) :
  In p (filterAndSortProducts products categories "" "all" sortBy priceRange)
  ↔ In p products
    ∧ (∃ c, In c categories ∧ In (category p) (subcategoriesOrName c))
    ∧ PrimFloat.leb (fst priceRange) (price p) = true
    ∧ PrimFloat.leb (price p) (snd priceRange) = true.
Proof.
  unfold filterAndSortProducts.
  rewrite <- !list_elem_of_In, sortProducts_perm, !list_elem_of_In.
  unfold filterProducts; simpl.
  rewrite !filter_In, listed_iff, andb_true_iff. tauto.
Qed.

End Visibility.

(** C3: a category saved by the admin form with no subcategories carries
    the empty array, which is truthy, so [c.subcategories || [c.name]]
    never falls back to the name: with the active category "Bags" and a
    product of category "Bags" priced inside the range, the storefront
    shows nothing, whatever the sort order. *)
Theorem product_of_category_without_subcategories_hidden `{StoreFront.Runtime}
    (sortBy : string) :
  StoreFront.active StoreFront.bags = true
  ∧ StoreFront.subcategories StoreFront.bags = Some []
  ∧ StoreFront.category StoreFront.bag = StoreFront.cat_name StoreFront.bags
  ∧ PrimFloat.leb 0 (StoreFront.price StoreFront.bag) = true
  ∧ PrimFloat.leb (StoreFront.price StoreFront.bag) 50000 = true
  ∧ StoreFront.filterAndSortProducts [StoreFront.bag] [StoreFront.bags] "" "all" sortBy
      (0%float, 50000%float) = [].
Proof.
  repeat split.
  unfold StoreFront.filterAndSortProducts, StoreFront.sortProducts; simpl.
  by repeat case_match.
Qed.

(** ** The key-value store *)
Section Store.
Import Json.
Implicit Types s : Store.

Lemma prefix_append (pfx id : string) : String.prefix pfx (pfx +:+ id) = true.
Proof.
  induction pfx as [|c pfx IH]; simpl; [by destruct id|].
  by destruct (Ascii.ascii_dec c c).
Qed.

(** The prefix scan returns exactly the values stored under the keys that
    start with the prefix. *)
Lemma getByPrefix_elem (pfx : string) s (o : JsonObject) :
  o ∈ kv.getByPrefix pfx s ↔ ∃ k, String.prefix pfx k = true ∧ s !! k = Some o.
Proof.
  unfold kv.getByPrefix. rewrite list_elem_of_fmap. split.
  - intros ([k o'] & -> & Hin). apply elem_of_map_to_list in Hin.
    apply map_lookup_filter_Some in Hin as [Hk Hp]. simpl in *.
    exists k. split; [by apply Is_true_true|done].
  - intros (k & Hp & Hk). exists (k, o). split; [done|].
    apply elem_of_map_to_list, map_lookup_filter_Some.
    split; [done|]. by apply Is_true_true.
Qed.

(** Writing under a key outside the prefix does not change the scan. *)
Lemma getByPrefix_set_other (pfx key : string) (v : JsonObject) s :
  String.prefix pfx key = false →
  kv.getByPrefix pfx (kv.set key v s) = kv.getByPrefix pfx s.
Proof.
  intros Hk. unfold kv.getByPrefix, kv.set.
  rewrite map_filter_insert_not; [done|].
  intros y Hy. simpl in Hy. rewrite Hk in Hy. done.
Qed.

Lemma getByPrefix_del_other (pfx key : string) s :
  String.prefix pfx key = false →
  kv.getByPrefix pfx (kv.del key s) = kv.getByPrefix pfx s.
Proof.
  intros Hk. unfold kv.getByPrefix, kv.del.
  rewrite map_filter_delete_not; [done|].
  intros y _ Hy. simpl in Hy. rewrite Hk in Hy. done.
Qed.

(** Writing under a key inside the prefix puts the value in the scan, next
    to what the other keys hold. *)
Lemma getByPrefix_set_perm (pfx key : string) (v : JsonObject) s :
  String.prefix pfx key = true →
  kv.getByPrefix pfx (kv.set key v s) ≡ₚ v :: kv.getByPrefix pfx (kv.del key s).
Proof.
  intros Hk. unfold kv.getByPrefix, kv.set, kv.del.
  rewrite map_filter_insert_True by (by apply Is_true_true).
  rewrite map_filter_delete, <- insert_delete_eq.
  rewrite map_to_list_insert by apply lookup_delete_eq.
  done.
Qed.

Lemma filter_perm {A : Type} (f : A → bool) (l l' : list A) :
  l ≡ₚ l' → List.filter f l ≡ₚ List.filter f l'.
Proof.
  induction 1 as [|x l l' _ IH|x y l|l l' l'' _ IH1 _ IH2]; simpl.
  - done.
  - destruct (f x); [by constructor|done].
  - destruct (f x), (f y); try done. apply Permutation_swap.
  - by etrans.
Qed.

End Store.

(** ** Creating and updating records *)
Section Records.
Import Json Server.
Context `{Services} `{Tables}.
Implicit Types s : Store.

(** The fields of the record written by an update. *)
Lemma merged_fields (existing : JsonObject) (updates : value) (id stamp : string) :
  merged existing updates id stamp !! "id" = Some (VStr id)
  ∧ merged existing updates id stamp !! "updatedAt" = Some (VStr stamp)
  ∧ ∀ k, k ≠ "id" → k ≠ "updatedAt" →
      merged existing updates id stamp !! k
      = match spread updates !! k with
        | Some v => Some v
        | None => existing !! k
        end.
Proof.
  unfold merged. repeat split.
  - rewrite lookup_insert_ne by done. apply lookup_insert_eq.
  - by rewrite lookup_insert_eq.
  - intros k Hid Hup. rewrite !lookup_insert_ne by done.
    rewrite lookup_union. by destruct (spread updates !! k), (existing !! k).
Qed.

(** The fields of the record written for a new order. *)
Lemma newOrder_fields (order : value) (id stamp : string) :
  newOrder order id stamp !! "id" = Some (VStr id)
  ∧ newOrder order id stamp !! "status" = Some (VStr "pending")
  ∧ newOrder order id stamp !! "createdAt" = Some (VStr stamp)
  ∧ ∀ k, k ≠ "id" → k ≠ "status" → k ≠ "createdAt" →
      newOrder order id stamp !! k = spread order !! k.
Proof.
  unfold newOrder. repeat split.
  - rewrite !lookup_insert_ne by done. apply lookup_insert_eq.
  - rewrite lookup_insert_ne by done. apply lookup_insert_eq.
  - by rewrite lookup_insert_eq.
  - intros k ? ? ?. by rewrite !lookup_insert_ne.
Qed.

End Records.

(** C9: for every JSON request body, POST /orders stores and returns a
    record whose [id] is the identifier generated for the request and
    whose [status] is 'pending', whatever [id] or [status] the body
    carries; the other fields of the body are kept, and [createdAt] is the
    server's time. *)
Theorem post_orders_pending `{Server.Services} `{Server.Tables}
    (req : Server.Request) (env : Server.Env)
    (s : Store) (order : Json.value) :
  Server.json req = Some order →
  let id := Server.randomUUID env 0 in
  ∃ o,
    Server.handle Server.PostOrders req env s
    = (Server.respond 200 [("order", Json.VObj o)], <["order:" +:+ id := o]> s)
    ∧ (<["order:" +:+ id := o]> s) !! ("order:" +:+ id) = Some o
    ∧ o !! "id" = Some (Json.VStr id)
    ∧ o !! "status" = Some (Json.VStr "pending")
    ∧ o !! "createdAt" = Some (Json.VStr (Server.toISOString env 0))
    ∧ ∀ k, k ≠ "id" → k ≠ "status" → k ≠ "createdAt" → o !! k = Json.spread order !! k.
Proof.
  intros Hjson id.
  exists (Server.newOrder order id (Server.toISOString env 0)).
  split.
  { simpl. unfold Server.post_orders, Server.with_json. by rewrite Hjson. }
  split; [apply lookup_insert_eq|].
  apply newOrder_fields.
Qed.

Lemma post_orders_pending_witness :
  let body := Json.VObj (Json.object [("id", Json.VStr "mine");
                                      ("status", Json.VStr "delivered");
                                      ("total", Json.VNum 2160)]) in
  Server.json (Demo.anonymous (Some body)) = Some body
  ∧ ∃ o,
      Server.handle (H := Demo.services) (H0 := Demo.tables) Server.PostOrders
        (Demo.anonymous (Some body)) Demo.env ∅
      = (Server.respond 200 [("order", Json.VObj o)], <["order:uuid-0" := o]> ∅)
      ∧ o !! "id" = Some (Json.VStr "uuid-0")
      ∧ o !! "status" = Some (Json.VStr "pending").
Proof.
  intros body. split; [reflexivity|].
  destruct (post_orders_pending (H := Demo.services) (H0 := Demo.tables)
              (Demo.anonymous (Some body)) Demo.env ∅ body eq_refl)
    as (o & Hhandle & _ & Hid & Hstatus & _).
  exists o. repeat split; assumption.
Defined.

(** C7: for an authorised PUT /products/:id or PUT /orders/:id with a JSON
    payload on a stored record, the record is replaced by the merge in
    which the fields of the payload overwrite the stored fields and the
    fields absent from the payload keep their value, except for two
    fields: [id] is the path id even if the payload carries another one,
    and [updatedAt] is always the server's current time. *)
Theorem put_merges_record `{Server.Services} `{Server.Tables}
    (r : Server.Route) (key field id : string) (req : Server.Request) (env : Server.Env)
    (s : Store) (updates : Json.value)
    (existing : JsonObject) :
  In (r, key, field) [(Server.PutProduct id, "product:" +:+ id, "product");
                      (Server.PutOrder id, "order:" +:+ id, "order")] →
  Server.authorized req = true →
  Server.json req = Some updates →
  s !! key = Some existing →
  ∃ u,
    Server.handle r req env s
    = (Server.respond 200 [(field, Json.VObj u)], <[key := u]> s)
    ∧ (<[key := u]> s) !! key = Some u
    ∧ u !! "id" = Some (Json.VStr id)
    ∧ u !! "updatedAt" = Some (Json.VStr (Server.toISOString env 0))
    ∧ ∀ k, k ≠ "id" → k ≠ "updatedAt" →
        u !! k = match Json.spread updates !! k with
                 | Some v => Some v
                 | None => existing !! k
                 end.
Proof.
  intros Hr Hauth Hjson Hexisting.
  exists (Server.merged existing updates id (Server.toISOString env 0)).
  split.
  { destruct Hr as [Hr|[Hr|[]]]; injection Hr as <- <- <-; simpl;
      [unfold Server.put_product|unfold Server.put_order];
      unfold Server.protected, Server.with_json, kv.get, kv.set;
      by rewrite Hauth, Hjson, Hexisting. }
  split; [apply lookup_insert_eq|].
  apply merged_fields.
Qed.

Lemma put_merges_record_witness :
  let payload := Json.VObj (Json.object [("id", Json.VStr "8");
                                         ("price", Json.VNum 9900)]) in
  let s : Store := {["product:7" := Demo.boots]} in
  Server.authorized (H := Demo.services) (Demo.admin (Some payload)) = true
  ∧ s !! "product:7" = Some Demo.boots
  ∧ ∃ u,
      (Server.handle (H := Demo.services) (H0 := Demo.tables) (Server.PutProduct "7")
         (Demo.admin (Some payload)) Demo.env s).2 !! "product:7" = Some u
      ∧ u !! "id" = Some (Json.VStr "7")
      ∧ u !! "price" = Some (Json.VNum 9900)
      ∧ u !! "name" = Some (Json.VStr "Heritage Leather Boots").
Proof.
  intros payload s. split; [reflexivity|]. split; [reflexivity|].
  destruct (put_merges_record (H := Demo.services) (H0 := Demo.tables)
              (Server.PutProduct "7") "product:7" "product" "7"
              (Demo.admin (Some payload)) Demo.env s payload Demo.boots
              (or_introl eq_refl) eq_refl eq_refl eq_refl)
    as (u & Hhandle & Hstored & Hid & _ & Hrest).
  exists u. rewrite Hhandle. split; [exact Hstored|]. split; [exact Hid|].
  split; [by rewrite Hrest|by rewrite Hrest].
Defined.

(** The update with an empty payload on a stored product: [updatedAt] is
    absent from the payload and still replaced by the server's time. *)
Lemma put_product_restamps :
  let payload := Json.VObj ∅ in
  let s : Store := {["product:7" := Demo.boots]} in
  let s' := (Server.handle (H := Demo.services) (H0 := Demo.tables) (Server.PutProduct "7")
               (Demo.admin (Some payload)) Demo.env s).2 in
  Json.spread payload !! "updatedAt" = None
  ∧ s !! "product:7" = Some Demo.boots
  ∧ Demo.boots !! "updatedAt" = Some (Json.VStr "2024-01-01T00:00:00.000Z")
  ∧ ∃ u, s' !! "product:7" = Some u
         ∧ u !! "updatedAt" = Some (Json.VStr "2024-01-02T00:00:00.000Z").
Proof.
  repeat split. eexists. split; reflexivity.
Qed.

(** ** The guard *)

(** C6: every route that writes, apart from signup, the two initialisation
    routes, order creation and the two payment routes, opens with the
    guard: when the bearer token does not validate against the identity
    provider the answer is 401 and the store is left as it was; POST
    /products is one of these routes. *)
Theorem unauthorized_write_rejected `{Server.Services} `{Server.Tables}
    (r : Server.Route) (req : Server.Request) (env : Server.Env)
    (s : Store) :
  Server.mutating r = true →
  Server.unguarded r = false →
  Server.authorized req = false →
  Server.handle r req env s = (Server.error 401 "Unauthorized", s).
Proof.
  intros Hwrite Hguard Hauth.
  destruct r; try discriminate Hwrite; try discriminate Hguard; simpl;
    unfold Server.post_products, Server.put_product, Server.delete_product,
      Server.post_upload_image, Server.post_delivery_locations,
      Server.put_delivery_location, Server.delete_delivery_location,
      Server.put_order, Server.post_categories, Server.put_category_toggle,
      Server.delete_category, Server.post_category_add_products, Server.protected;
    by rewrite Hauth.
Qed.

(** The six routes left out never answer 401: they do not look at the
    token at all. *)
Lemma unguarded_never_rejects `{Server.Services} `{Server.Tables}
    (r : Server.Route) (req : Server.Request) (env : Server.Env) (s : Store) :
  Server.unguarded r = true →
  Server.status (Server.handle r req env s).1 ≠ 401.
Proof.
  intros Hr. destruct r; try discriminate Hr; simpl;
    unfold Server.post_admin_signup, Server.post_init_sample_data, Server.post_orders,
      Server.post_payment_mpesa, Server.post_payment_card, Server.post_init_categories,
      Server.with_json;
    repeat case_match; simpl; discriminate.
Qed.

Lemma unauthorized_write_rejected_witness :
  Server.authorized (H := Demo.services) (Demo.anonymous (Some (Json.VObj ∅))) = false
  ∧ Server.handle (H := Demo.services) (H0 := Demo.tables) Server.PostProducts
      (Demo.anonymous (Some (Json.VObj ∅))) Demo.env ∅
    = (Server.error 401 "Unauthorized", ∅).
Proof.
  split; [reflexivity|].
  apply (unauthorized_write_rejected (H := Demo.services) (H0 := Demo.tables));
    reflexivity.
Defined.

(** The two initialisation routes write without a valid token: on an empty
    store POST /init-categories answers 200 and stores the five default
    categories, and next to a stored product POST /init-sample-data
    answers 200 and stores the ten default delivery locations. *)
Lemma init_routes_write_without_token :
  let req := Demo.anonymous None in
  let s : Store := {["product:7" := Demo.boots]} in
  let categories :=
    Server.handle (H := Demo.services) (H0 := Demo.tables) Server.PostInitCategories
      req Demo.env ∅ in
  let locations :=
    Server.handle (H := Demo.services) (H0 := Demo.tables) Server.PostInitSampleData
      req Demo.env s in
  Server.authorized (H := Demo.services) req = false
  ∧ Server.mutating Server.PostInitCategories = true
  ∧ Server.mutating Server.PostInitSampleData = true
  ∧ Server.status categories.1 = 200
  ∧ length (kv.getByPrefix "category:" categories.2) = 5
  ∧ Server.status locations.1 = 200
  ∧ length (kv.getByPrefix "delivery:" locations.2) = 10.
Proof.
  repeat split; vm_compute; reflexivity.
Qed.

(** ** Listing the orders *)

(** C10: with a valid token, GET /orders leaves the store as it is and
    returns all stored orders, each once, newest first by the time of
    their [createdAt], provided every stored order has a [createdAt] that
    is a date. *)
Theorem get_orders_newest_first `{Server.Services} `{Server.Tables}
    (req : Server.Request) (env : Server.Env) (s : Store) :
  Server.authorized req = true →
  Forall (fun o => is_Some (Server.createdTime o)) (kv.getByPrefix "order:" s) →
  ∃ orders,
    Server.handle Server.GetOrders req env s
    = (Server.respond 200 [("orders", Server.objects orders)], s)
    ∧ orders ≡ₚ kv.getByPrefix "order:" s
    ∧ (∀ o, o ∈ orders ↔ ∃ k, String.prefix "order:" k = true ∧ s !! k = Some o)
    ∧ StronglySorted Server.notOlder orders.
Proof.
  intros Hauth Hdates.
  exists (JS.sort_by Server.newerFirst (kv.getByPrefix "order:" s)).
  split.
  { simpl. unfold Server.get_orders, Server.protected. by rewrite Hauth. }
  split; [apply sort_by_perm|].
  split.
  { intros o. by rewrite sort_by_perm, getByPrefix_elem. }
  eapply sort_by_sorted; [| | |exact Hdates].
  - intros a b [ta Ha] [tb Hb] Hcmp. unfold Server.newerFirst in Hcmp.
    rewrite Ha, Hb in Hcmp. exists ta, tb. repeat split; [done..|]. lia.
  - intros a b [ta Ha] [tb Hb] Hcmp. unfold Server.newerFirst in Hcmp.
    rewrite Ha, Hb in Hcmp. exists tb, ta. repeat split; [done..|]. lia.
  - intros a b c (ta & tb & Ha & Hb & Hab) (tb' & tc & Hb' & Hc & Hbc).
    exists ta, tc. repeat split; [done..|]. simplify_eq. lia.
Qed.

Lemma get_orders_newest_first_witness :
  let s : Store :=
    <["order:a" := Demo.order "a" "2024-01-01T00:00:00.000Z"]>
      (<["order:b" := Demo.order "b" "2024-01-02T00:00:00.000Z"]> ∅) in
  Server.authorized (H := Demo.services) (Demo.admin None) = true
  ∧ ∃ orders,
      Server.handle (H := Demo.services) (H0 := Demo.tables) Server.GetOrders
        (Demo.admin None) Demo.env s
      = (Server.respond 200 [("orders", Server.objects orders)], s)
      ∧ StronglySorted (Server.notOlder (H := Demo.services)) orders.
Proof.
  intros s. split; [reflexivity|].
  assert (Forall (fun o => is_Some (Server.createdTime (H := Demo.services) o))
            (kv.getByPrefix "order:" s)) as Hdates.
  { apply Forall_forall. intros o Ho.
    apply getByPrefix_elem in Ho as (k & _ & Hk). subst s.
    apply lookup_insert_Some in Hk as [[_ <-]|[_ Hk]]; [by eexists|].
    apply lookup_insert_Some in Hk as [[_ <-]|[_ Hk]]; [by eexists|].
    by rewrite lookup_empty in Hk. }
  destruct (get_orders_newest_first (H := Demo.services) (H0 := Demo.tables)
              (Demo.admin None) Demo.env s eq_refl Hdates)
    as (orders & Hhandle & _ & _ & Hsorted).
  exists orders. split; assumption.
Defined.

(** On that store the answer lists order [b], created on the second of
    January, before order [a], created on the first. *)
Example get_orders_two :
  Server.body
    (Server.handle (H := Demo.services) (H0 := Demo.tables) Server.GetOrders
       (Demo.admin None) Demo.env
       (<["order:a" := Demo.order "a" "2024-01-01T00:00:00.000Z"]>
          (<["order:b" := Demo.order "b" "2024-01-02T00:00:00.000Z"]> ∅))).1
  = Json.VObj (Json.object
      [("orders", Server.objects [Demo.order "b" "2024-01-02T00:00:00.000Z";
                                  Demo.order "a" "2024-01-01T00:00:00.000Z"])]).
Proof. vm_compute. reflexivity. Qed.

(** ** Categories: toggling, deleting, and what the storefront loads *)
Section Categories.
Import Json Server.
Context `{Services} `{Tables} `{Shop.View} `{StoreFront.Runtime}.
Implicit Types s : Store.

Lemma omap_objects (l : list JsonObject) :
  omap (fun v => match v with VObj o => Some o | _ => None end) (VObj <$> l) = l.
Proof. induction l as [|o l IH]; csimpl; [done|]. by rewrite IH. Qed.

Lemma array_field_objects (k : string) (l : list JsonObject) :
  Shop.array_field (body (respond 200 [(k, objects l)])) k = l.
Proof.
  unfold Shop.array_field, respond, object, objects; simpl.
  rewrite lookup_insert_eq. apply omap_objects.
Qed.

(** The two lists the storefront loads are the stored products and the
    stored categories whose [active] is truthy. *)
Lemma loadProducts_stored (req : Request) (env : Env) s :
  Shop.loadProducts req env s = Shop.asProduct <$> kv.getByPrefix "product:" s.
Proof.
  unfold Shop.loadProducts, get_products. cbv zeta. cbn [fst].
  by rewrite array_field_objects.
Qed.

Lemma loadCategories_active (req : Request) (env : Env) s :
  Shop.loadCategories req env s = Shop.asCategory <$> activeCategories s.
Proof.
  unfold Shop.loadCategories, get_categories_active. cbv zeta. cbn [fst].
  by rewrite array_field_objects.
Qed.

(** The fields of the record written by the toggle. *)
Lemma toggled_fields (existing : JsonObject) (stamp : string) :
  toggled existing stamp !! "active" = Some (VBool (negb (truthy (existing !! "active"))))
  ∧ toggled existing stamp !! "updatedAt" = Some (VStr stamp)
  ∧ ∀ k, k ≠ "active" → k ≠ "updatedAt" → toggled existing stamp !! k = existing !! k.
Proof.
  unfold toggled. repeat split.
  - rewrite lookup_insert_ne by done. apply lookup_insert_eq.
  - apply lookup_insert_eq.
  - intros k ? ?. by rewrite !lookup_insert_ne.
Qed.

(** Once an active category is toggled, the active categories are those of
    the store without it. *)
Lemma activeCategories_toggled (id stamp : string) s (existing : JsonObject) :
  truthy (existing !! "active") = true →
  activeCategories (kv.set ("category:" +:+ id) (toggled existing stamp) s)
  ≡ₚ activeCategories (kv.del ("category:" +:+ id) s).
Proof.
  intros Hactive. unfold activeCategories.
  rewrite (filter_perm _ _ _ (getByPrefix_set_perm _ _ _ _ (prefix_append _ _))).
  simpl. destruct (toggled_fields existing stamp) as [-> _].
  by rewrite Hactive.
Qed.

End Categories.

(** C4: an authorised toggle of a stored category writes that category
    back with [active] negated and every other field but [updatedAt]
    unchanged; no other key of the store is written, in particular no
    product record, and the product list the storefront loads is the same.
    When the category was active, it is no longer among the categories the
    storefront loads, so a product is still shown only if another active
    category offers its category string. *)
Theorem toggle_category_frame `{Server.Services} `{Server.Tables} `{Shop.View}
    `{StoreFront.Runtime} (id : string) (req : Server.Request) (env : Server.Env)
    (s : Store) (existing : JsonObject) :
  Server.authorized req = true →
  s !! ("category:" +:+ id) = Some existing →
  let key := "category:" +:+ id in
  let s' := (Server.handle (Server.PutCategoryToggle id) req env s).2 in
  ∃ u,
    Server.handle (Server.PutCategoryToggle id) req env s
    = (Server.respond 200 [("category", Json.VObj u)], <[key := u]> s)
    ∧ u !! "active" = Some (Json.VBool (negb (Json.truthy (existing !! "active"))))
    ∧ (∀ b, existing !! "active" = Some (Json.VBool b) →
            u !! "active" = Some (Json.VBool (negb b)))
    ∧ (∀ k, k ≠ "active" → k ≠ "updatedAt" → u !! k = existing !! k)
    ∧ (∀ k, k ≠ key → s' !! k = s !! k)
    ∧ (∀ pid, s' !! ("product:" +:+ pid) = s !! ("product:" +:+ pid))
    ∧ (∀ req' env', Shop.loadProducts req' env' s' = Shop.loadProducts req' env' s)
    ∧ (Json.truthy (existing !! "active") = true →
       Server.activeCategories s' ≡ₚ Server.activeCategories (kv.del key s)
       ∧ ∀ req' env' sortBy priceRange p,
           In p (Shop.storefront req' env' s' "" "all" sortBy priceRange) →
           In p (Shop.loadProducts req' env' s)
           ∧ ∃ c, In c (Shop.loadCategories req' env' (kv.del key s))
                  ∧ In (StoreFront.category p) (StoreFront.subcategoriesOrName c)).
Proof.
  intros Hauth Hexisting key s'.
  assert (Server.handle (Server.PutCategoryToggle id) req env s
          = (Server.respond 200
               [("category", Json.VObj (Server.toggled existing (Server.toISOString env 0)))],
             kv.set key (Server.toggled existing (Server.toISOString env 0)) s))
    as Hhandle.
  { simpl. unfold Server.put_category_toggle, Server.protected, kv.get.
    by rewrite Hauth, Hexisting. }
  assert (∀ req' env', Shop.loadProducts req' env' s' = Shop.loadProducts req' env' s)
    as Hproducts.
  { intros req' env'. rewrite !loadProducts_stored. subst s'.
    rewrite Hhandle. simpl. by rewrite getByPrefix_set_other. }
  destruct (toggled_fields existing (Server.toISOString env 0)) as (Hactive & _ & Hrest).
  exists (Server.toggled existing (Server.toISOString env 0)).
  split; [exact Hhandle|]. split; [exact Hactive|].
  split. { intros b Hb. by rewrite Hactive, Hb. }
  split; [exact Hrest|].
  split. { intros k Hk. subst s'. rewrite Hhandle. by apply lookup_insert_ne. }
  split.
  { intros pid. subst s'. rewrite Hhandle. apply lookup_insert_ne. by subst key. }
  split; [exact Hproducts|].
  intros Hwas.
  assert (Server.activeCategories s' ≡ₚ Server.activeCategories (kv.del key s)) as Hperm.
  { subst s'. rewrite Hhandle. by apply activeCategories_toggled. }
  split; [exact Hperm|].
  intros req' env' sortBy priceRange p Hp.
  unfold Shop.storefront in Hp. apply storefront_shows in Hp as (Hin & (c & Hc & Hpc) & _).
  rewrite Hproducts in Hin. split; [exact Hin|].
  exists c. split; [|exact Hpc].
  rewrite loadCategories_active in Hc |- *.
  apply list_elem_of_In. apply list_elem_of_In in Hc. by rewrite <- Hperm.
Qed.

(** C5: the console blocks the deletion of an active category, whose
    delete button is disabled, so that a click sends nothing and the
    record stays; on an inactive category a confirmed click with a valid
    admin token removes the record.  The DELETE route itself does not look
    at [active]: for a valid token it removes whatever is stored under the
    id. *)
Theorem delete_category_blocked_in_console `{Server.Services} `{Server.Tables}
    (accessToken : string) (category : Admin.Category) (confirmed : bool)
    (env : Server.Env) (s : Store) :
  Server.authorized (Admin.bearer accessToken) = true →
  let key := "category:" +:+ Admin.id category in
  Admin.clickDelete accessToken category confirmed env s
  = (if Admin.active category then s else if confirmed then delete key s else s)
  ∧ Server.handle (Server.DeleteCategory (Admin.id category)) (Admin.bearer accessToken) env s
    = (Server.respond 200 [("success", Json.VBool true)], delete key s)
  ∧ delete key s !! key = None.
Proof.
  intros Hauth key.
  assert (Server.handle (Server.DeleteCategory (Admin.id category))
            (Admin.bearer accessToken) env s
          = (Server.respond 200 [("success", Json.VBool true)], delete key s)) as Hhandle.
  { simpl. unfold Server.delete_category, Server.protected. by rewrite Hauth. }
  split; [|split; [exact Hhandle|apply lookup_delete_eq]].
  unfold Admin.clickDelete, Admin.deleteCategory. by rewrite Hhandle.
Qed.

Lemma toggle_category_frame_witness :
  Server.authorized (H := Demo.services) (Demo.admin None) = true
  ∧ Demo.shop !! "category:c2" = Some Demo.footwear
  ∧ ∃ u,
      Server.handle (H := Demo.services) (H0 := Demo.tables) (Server.PutCategoryToggle "c2")
        (Demo.admin None) Demo.env Demo.shop
      = (Server.respond 200 [("category", Json.VObj u)], <["category:c2" := u]> Demo.shop)
      ∧ u !! "active" = Some (Json.VBool false)
      ∧ u !! "name" = Some (Json.VStr "Footwear").
Proof.
  split; [reflexivity|]. split; [reflexivity|].
  destruct (toggle_category_frame (H := Demo.services) (H0 := Demo.tables)
              (H1 := Demo.view) (H2 := Demo.runtime)
              "c2" (Demo.admin None) Demo.env Demo.shop Demo.footwear eq_refl eq_refl)
    as (u & Hhandle & _ & Hactive & Hrest & _).
  exists u. split; [exact Hhandle|]. split.
  - apply (Hactive true). reflexivity.
  - rewrite Hrest by discriminate. reflexivity.
Defined.

(** The boots are shown while "Footwear" is active and are gone after the
    toggle, and the stored product is the same record. *)
Example boots_hidden_after_toggle :
  let s' := (Server.handle (H := Demo.services) (H0 := Demo.tables)
               (Server.PutCategoryToggle "c2") (Demo.admin None) Demo.env Demo.shop).2 in
  Shop.storefront (H := Demo.view) (H0 := Demo.runtime) (Demo.anonymous None) Demo.env
    Demo.shop "" "all" "featured" (0%float, 50000%float)
  = [Shop.asProduct (View := Demo.view) Demo.boots]
  ∧ Shop.storefront (H := Demo.view) (H0 := Demo.runtime) (Demo.anonymous None) Demo.env
      s' "" "all" "featured" (0%float, 50000%float) = []
  ∧ s' !! "product:7" = Some Demo.boots.
Proof. repeat split; vm_compute; reflexivity. Qed.

Lemma delete_category_blocked_in_console_witness :
  let s : Store :=
    {["category:c1" := Demo.testCategory false]} in
  Server.authorized (H := Demo.services) (Admin.bearer "admin-token") = true
  ∧ Admin.clickDelete (H := Demo.services) (H0 := Demo.tables) "admin-token"
      (Demo.testRow true) true Demo.env s = s
  ∧ Admin.clickDelete (H := Demo.services) (H0 := Demo.tables) "admin-token"
      (Demo.testRow false) true Demo.env s = delete "category:c1" s.
Proof.
  intros s. split; [reflexivity|]. split.
  - apply (delete_category_blocked_in_console (H := Demo.services) (H0 := Demo.tables)
             "admin-token" (Demo.testRow true) true Demo.env s eq_refl).
  - apply (delete_category_blocked_in_console (H := Demo.services) (H0 := Demo.tables)
             "admin-token" (Demo.testRow false) true Demo.env s eq_refl).
Defined.

(** A DELETE request with a valid token for the stored, active category
    "Test" is answered with 200 and removes the record. *)
Lemma delete_route_removes_active_category :
  let s : Store :=
    {["category:c1" := Demo.testCategory true]} in
  let r := Server.handle (H := Demo.services) (H0 := Demo.tables)
             (Server.DeleteCategory "c1") (Demo.admin None) Demo.env s in
  s !! "category:c1" = Some (Demo.testCategory true)
  ∧ Demo.testCategory true !! "active" = Some (Json.VBool true)
  ∧ r.1 = Server.respond 200 [("success", Json.VBool true)]
  ∧ r.2 !! "category:c1" = None.
Proof. repeat split. Qed.

(** * Further properties of the cart, the wishlist and the category menu *)

(** ** [===] on numbers *)

Lemma eqb_nan_r (x : float) : PrimFloat.eqb x nan = false.
Proof.
  rewrite FloatAxioms.eqb_spec. unfold SFeqb, SFcompare.
  replace (Prim2SF nan) with S754_nan by reflexivity.
  by destruct (Prim2SF x).
Qed.

Lemma SFeqb_sym (a b : spec_float) : SFeqb a b = true → SFeqb b a = true.
Proof.
  unfold SFeqb, SFcompare.
  destruct a as [sa|sa| |sa ma ea], b as [sb|sb| |sb mb eb];
    try done; try (by destruct sa); try (by destruct sb); try (by destruct sa, sb).
  destruct sa, sb; try done;
    destruct (Z.compare ea eb) eqn:He; try done;
    apply Z.compare_eq in He; subst; rewrite Z.compare_refl;
    destruct (Pos.compare_cont Eq ma mb) eqn:Hm; try done;
    apply Pos.compare_eq in Hm; subst; by rewrite Pos.compare_cont_refl.
Qed.

Lemma SFeqb_trans (a b c : spec_float) :
  SFeqb a b = true → SFeqb b c = true → SFeqb a c = true.
Proof.
  unfold SFeqb, SFcompare.
  destruct a as [sa|sa| |sa ma ea], b as [sb|sb| |sb mb eb], c as [sc|sc| |sc mc ec];
    try done; try (by destruct sa); try (by destruct sb); try (by destruct sc);
    try (by destruct sa, sb, sc).
  destruct sa, sb, sc; try done;
    destruct (Z.compare ea eb) eqn:Hab; try done;
    destruct (Z.compare eb ec) eqn:Hbc; try done;
    apply Z.compare_eq in Hab, Hbc; subst;
    rewrite Z.compare_refl;
    destruct (Pos.compare_cont Eq ma mb) eqn:Hm1; try done;
    destruct (Pos.compare_cont Eq mb mc) eqn:Hm2; try done;
    apply Pos.compare_eq in Hm1, Hm2; subst; by rewrite Pos.compare_cont_refl.
Qed.

(** Two numbers that [===] a third one [===] each other. *)
Lemma eqb_same (x y z : float) :
  PrimFloat.eqb x z = true → PrimFloat.eqb y z = true → PrimFloat.eqb x y = true.
Proof.
  rewrite !FloatAxioms.eqb_spec. intros Hxz Hyz.
  eapply SFeqb_trans; [exact Hxz|]. by apply SFeqb_sym.
Qed.

(** ** The cart *)
Section CartMore.
Import StoreFront.

Lemma filter_none {A : Type} (f : A → bool) (l : list A) :
  existsb f l = false → List.filter (fun x => negb (f x)) l = l.
Proof.
  induction l as [|x l IH]; simpl; [done|].
  intros [-> Hl]%orb_false_elim. simpl. by rewrite IH.
Qed.

Lemma map_none {A : Type} (f : A → bool) (g : A → A) (l : list A) :
  existsb f l = false → map (fun x => if f x then g x else x) l = l.
Proof.
  induction l as [|x l IH]; simpl; [done|].
  intros [-> Hl]%orb_false_elim. by rewrite IH.
Qed.

Lemma filter_sorted {A : Type} (R : relation A) (f : A → bool) (l : list A) :
  StronglySorted R l → StronglySorted R (List.filter f l).
Proof.
  induction 1 as [|x l Hl IH Hx]; simpl; [constructor|].
  destruct (f x); [|done]. constructor; [done|].
  apply Forall_forall. intros y Hy. apply list_elem_of_In, filter_In in Hy as [Hy _].
  rewrite Forall_forall in Hx. by apply Hx, list_elem_of_In.
Qed.

Lemma act_apart (cart : list CartItem) (a : CartAction) :
  StronglySorted apart cart → StronglySorted apart (act cart a).
Proof.
  intros Hcart.
  assert (∀ (f : CartItem → bool) (g : CartItem → float),
            StronglySorted apart
              (map (fun it => if f it
                              then {| item := item it; quantity := g it;
                                      selectedSize := selectedSize it;
                                      selectedColor := selectedColor it |}
                              else it) cart)) as Hmap.
  { intros f g. apply (StronglySorted_fmap _ apart apart); [|done].
    intros x y Hxy. unfold apart, sameKey in *. by destruct (f x), (f y). }
  destruct a as [product size color|productId size color|productId size color q|]; simpl.
  - unfold addToCart.
    destruct (List.find _ cart) as [existingItem|] eqn:Hfind.
    + apply (Hmap _ (fun it => (quantity it + 1)%float)).
    + apply StronglySorted_app_2; [|done|repeat constructor].
      intros x1 x2 Hx1 ->%list_elem_of_singleton. unfold apart; simpl.
      apply list_elem_of_In in Hx1. apply (find_none _ _ Hfind x1 Hx1).
  - by apply filter_sorted.
  - unfold updateCartQuantity. destruct (PrimFloat.leb q 0).
    + by apply filter_sorted.
    + apply (Hmap _ (fun _ => q)).
  - constructor.
Qed.

Lemma cartAfter_apart (actions : list CartAction) :
  StronglySorted apart (cartAfter actions).
Proof.
  unfold cartAfter.
  assert (StronglySorted apart []) as Hnil by constructor.
  revert Hnil. generalize (@nil CartItem).
  induction actions as [|a actions IH]; intros cart Hcart; simpl; [done|].
  by apply IH, act_apart.
Qed.

Lemma sameKey_same (productId : string) (size : float) (color : string)
    (x y : CartItem) :
  sameKey productId size color x = true →
  sameKey productId size color y = true →
  sameKey (id (item y)) (selectedSize y) (selectedColor y) x = true.
Proof.
  unfold sameKey. rewrite !andb_true_iff, !String.eqb_eq.
  intros [[Hxi Hx] Hxc] [[Hyi Hy] Hyc].
  split; [split|]; [congruence| |congruence].
  by eapply eqb_same.
Qed.

Lemma apart_at_most_one (productId : string) (size : float) (color : string)
    (cart : list CartItem) :
  StronglySorted apart cart →
  length (List.filter (sameKey productId size color) cart) ≤ 1.
Proof.
  induction 1 as [|x l Hl IH Hx]; simpl; [lia|].
  destruct (sameKey productId size color x) eqn:Hkx; [|done].
  assert (List.filter (sameKey productId size color) l = []) as ->; [|simpl; lia].
  clear IH Hl. induction Hx as [|y l Hxy _ IH]; simpl; [done|].
  destruct (sameKey productId size color y) eqn:Hky; [|done].
  unfold apart in Hxy. by rewrite (sameKey_same _ _ _ _ _ Hkx Hky) in Hxy.
Qed.

End CartMore.

(** X1: whatever sequence of add, remove, update and clear actions is
    applied to the empty cart, at most one line of the cart answers to any
    given product id, size and colour under the [===] test of the code. *)
Theorem cart_lines_never_share_key (actions : list StoreFront.CartAction)
    (productId : string) (size : float) (color : string) :
  length (List.filter (StoreFront.sameKey productId size color)
            (StoreFront.cartAfter actions)) ≤ 1.
Proof. apply apart_at_most_one, cartAfter_apart. Qed.

(** X2: removing a line undoes adding it: when no line of the cart answers
    to the key and the size [===] itself, [removeFromCart] after
    [addToCart] gives the cart back. *)
Theorem removeFromCart_undoes_addToCart (product : StoreFront.Product) (size : float)
    (color : string) (cart : list StoreFront.CartItem) :
  existsb (StoreFront.sameLine product size color) cart = false →
  PrimFloat.eqb size size = true →
  StoreFront.removeFromCart (StoreFront.id product) size color
    (StoreFront.addToCart product size color cart) = cart.
Proof.
  intros Hnone Hsize. rewrite addToCart_new by done.
  unfold StoreFront.removeFromCart. rewrite List.filter_app; simpl.
  unfold StoreFront.sameKey at 2; simpl. rewrite !String.eqb_refl, Hsize; simpl.
  rewrite app_nil_r. by apply filter_none.
Qed.

Lemma removeFromCart_undoes_addToCart_witness :
  existsb (StoreFront.sameLine StoreFront.tshirt 9 "White") [] = false
  ∧ StoreFront.removeFromCart "p-tshirt" 9 "White"
      (StoreFront.addToCart StoreFront.tshirt 9 "White" []) = [].
Proof.
  split; [reflexivity|].
  apply (removeFromCart_undoes_addToCart StoreFront.tshirt 9 "White" []); reflexivity.
Defined.

Lemma no_line_has_nan_key (productId color : string) (cart : list StoreFront.CartItem) :
  existsb (StoreFront.sameKey productId nan color) cart = false.
Proof.
  induction cart as [|x cart IH]; simpl; [done|].
  rewrite IH. unfold StoreFront.sameKey. by rewrite eqb_nan_r, andb_false_r.
Qed.

(** X3: a line whose size is [NaN] is stuck: its bin, minus and plus
    buttons in the cart panel leave every cart as it is, because no line
    answers to a key whose size is [NaN]. *)
Theorem nan_size_line_stuck (it : StoreFront.CartItem) (cart : list StoreFront.CartItem) :
  StoreFront.selectedSize it = nan →
  StoreFront.act cart (CartPanel.bin it) = cart
  ∧ StoreFront.act cart (CartPanel.minus it) = cart
  ∧ StoreFront.act cart (CartPanel.plus it) = cart.
Proof.
  intros Hnan. unfold CartPanel.bin, CartPanel.minus, CartPanel.plus; simpl.
  unfold StoreFront.updateCartQuantity, StoreFront.removeFromCart. rewrite Hnan.
  pose proof (no_line_has_nan_key (StoreFront.id (StoreFront.item it))
                (StoreFront.selectedColor it) cart) as Hnone.
  repeat split; repeat case_match; by rewrite ?filter_none, ?map_none.
Qed.

Lemma nan_size_line_stuck_witness :
  let it := {| StoreFront.item := StoreFront.tshirt; StoreFront.quantity := 1%float;
               StoreFront.selectedSize := nan; StoreFront.selectedColor := "White" |} in
  StoreFront.selectedSize it = nan
  ∧ StoreFront.act [it] (CartPanel.bin it) = [it].
Proof.
  intros it. split; [reflexivity|].
  apply (nan_size_line_stuck it [it]). reflexivity.
Defined.

(** X4: [toggleWishlist] flips whether the product is in the wishlist and
    changes it for no other product id. *)
Theorem toggleWishlist_flips (product : StoreFront.Product)
    (wishlist : list StoreFront.Product) :
  StoreFront.isInWishlist (StoreFront.toggleWishlist product wishlist)
    (StoreFront.id product)
  = negb (StoreFront.isInWishlist wishlist (StoreFront.id product))
  ∧ ∀ productId, productId ≠ StoreFront.id product →
      StoreFront.isInWishlist (StoreFront.toggleWishlist product wishlist) productId
      = StoreFront.isInWishlist wishlist productId.
Proof.
  unfold StoreFront.toggleWishlist, StoreFront.isInWishlist.
  destruct (List.find _ wishlist) as [found|] eqn:Hfind.
  - apply find_some in Hfind as [Hin Hid].
    assert (existsb (fun p => String.eqb (StoreFront.id p) (StoreFront.id product)) wishlist
            = true) as -> by (apply existsb_exists; eauto).
    split.
    + simpl. apply not_true_is_false. intros (p & Hp & Hpid)%existsb_exists.
      apply filter_In in Hp as [_ Hp]. by rewrite Hpid in Hp.
    + intros productId Hne. apply eq_true_iff_eq. rewrite !existsb_exists.
      split; intros (p & Hp & Hpid).
      * apply filter_In in Hp as [Hp _]. eauto.
      * exists p. split; [|done]. apply filter_In. split; [done|].
        apply String.eqb_eq in Hpid. subst productId.
        apply negb_true_iff, String.eqb_neq. congruence.
  - assert (existsb (fun p => String.eqb (StoreFront.id p) (StoreFront.id product)) wishlist
            = false) as Hnone.
    { apply not_true_is_false. intros (p & Hp & Hpid)%existsb_exists.
      by rewrite (find_none _ _ Hfind p Hp) in Hpid. }
    rewrite Hnone. split.
    + rewrite existsb_app; simpl. by rewrite String.eqb_refl, orb_true_r.
    + intros productId Hne. rewrite existsb_app; simpl.
      apply not_eq_sym, String.eqb_neq in Hne. by rewrite Hne, !orb_false_r.
Qed.

(** ** The catalogue filter and the category menu *)
Section FilterMore.
Import StoreFront.
Context `{Runtime}.




End FilterMore.

(** Membership in the list [filterAndSortProducts] hands to the grid. *)
Lemma shown_iff `{StoreFront.Runtime}
    (products : list StoreFront.Product) (categories : list StoreFront.Category)
    (searchQuery categoryFilter sortBy : string) (priceRange : float * float)
    (p : StoreFront.Product) :
  In p (StoreFront.filterAndSortProducts products categories searchQuery categoryFilter
          sortBy priceRange)
  ↔ In p products
    ∧ (∃ c, In c categories
            ∧ In (StoreFront.category p) (StoreFront.subcategoriesOrName c))
    ∧ (searchQuery = "" ∨ StoreFront.matchesSearch searchQuery p = true)
    ∧ (categoryFilter = "all" ∨ StoreFront.category p = categoryFilter)
    ∧ PrimFloat.leb (fst priceRange) (StoreFront.price p) = true
    ∧ PrimFloat.leb (StoreFront.price p) (snd priceRange) = true.
Proof.
  unfold StoreFront.filterAndSortProducts.
  rewrite <- !list_elem_of_In, sortProducts_perm, !list_elem_of_In.
  unfold StoreFront.filterProducts, JS.truthy_str.
  assert (searchQuery = "" ∨ StoreFront.matchesSearch searchQuery p = true
          ↔ (if negb (String.eqb searchQuery "") then
               StoreFront.matchesSearch searchQuery p = true else True)) as ->.
  { destruct (String.eqb_spec searchQuery ""); simpl; [tauto|].
    split; [intros [?|?]; [done|done]|auto]. }
  assert (categoryFilter = "all" ∨ StoreFront.category p = categoryFilter
          ↔ (if negb (String.eqb categoryFilter "all") then
               String.eqb (StoreFront.category p) categoryFilter = true else True)) as ->.
  { destruct (String.eqb_spec categoryFilter "all"); simpl; [tauto|].
    rewrite String.eqb_eq. split; [intros [?|?]; [done|done]|auto]. }
  destruct (negb (String.eqb searchQuery "")), (negb (String.eqb categoryFilter "all"));
    rewrite !filter_In, listed_iff, andb_true_iff; tauto.
Qed.

(** X5: what the storefront shows, for every search query, category filter,
    price range and sort order: exactly the products whose category string
    is offered by a loaded category, that match the search query when there
    is one, that have the chosen category unless the filter is "all", and
    whose price lies in the range; the sort only reorders them. *)
Theorem filterAndSortProducts_shows `{StoreFront.Runtime}
    (products : list StoreFront.Product) (categories : list StoreFront.Category)
    (searchQuery categoryFilter sortBy : string) (priceRange : float * float)
    (p : StoreFront.Product) :
  In p (StoreFront.filterAndSortProducts products categories searchQuery categoryFilter
          sortBy priceRange)
  ↔ In p products
    ∧ (∃ c, In c categories
            ∧ In (StoreFront.category p) (StoreFront.subcategoriesOrName c))
    ∧ (searchQuery = "" ∨ StoreFront.matchesSearch searchQuery p = true)
    ∧ (categoryFilter = "all" ∨ StoreFront.category p = categoryFilter)
    ∧ PrimFloat.leb (fst priceRange) (StoreFront.price p) = true
    ∧ PrimFloat.leb (StoreFront.price p) (snd priceRange) = true.
Proof. apply shown_iff. Qed.



(** * Further properties of the server *)
Section ServerMore.
Import Json Server.
Context `{Services} `{Tables}.
Implicit Types s : Store.

Lemma key_outside (pfx x k : string) : String.prefix pfx k = false → pfx +:+ x ≠ k.
Proof. intros Hk <-. by rewrite prefix_append in Hk. Qed.

Lemma set_all_outside (pfx k : string) (l : list JsonObject) s :
  String.prefix pfx k = false → set_all pfx l s !! k = s !! k.
Proof.
  intros Hk. unfold set_all. revert s.
  induction l as [|o l IH]; intros s; simpl; [done|].
  rewrite IH. unfold kv.set. by apply lookup_insert_ne, key_outside.
Qed.

Lemma add_products_outside (env : Env) (k : string) (l : list JsonObject) s :
  String.prefix "product:" k = false → (add_products env l s).2 !! k = s !! k.
Proof.
  intros Hk. unfold add_products.
  match goal with |- context [foldl ?f _ _] => set (step := f) end.
  generalize (@nil JsonObject) as added. generalize (imap pair l) as entries.
  intros entries. revert s.
  induction entries as [|[i productData] entries IH]; intros s added; simpl; [done|].
  destruct (step (added, s) (i, productData)) as [added' s'] eqn:Hstep.
  rewrite IH. unfold step in Hstep. injection Hstep as _ <-.
  unfold kv.set. by apply lookup_insert_ne, key_outside.
Qed.

(** A non-empty batch leaves a record under its prefix. *)
Lemma set_all_nonempty (pfx : string) (l : list JsonObject) s :
  l ≠ [] → kv.getByPrefix pfx (set_all pfx l s) ≠ [].
Proof.
  intros Hl. destruct (exists_last Hl) as (l' & o & ->).
  unfold set_all. rewrite foldl_snoc. fold (set_all pfx l' s).
  intros Hnil.
  assert (o ∈ kv.getByPrefix pfx (kv.set (pfx +:+ template (o !! "id")) o (set_all pfx l' s)))
    as Ho.
  { apply getByPrefix_elem. eexists. split; [apply prefix_append|].
    apply lookup_insert_eq. }
  rewrite Hnil in Ho. by apply not_elem_of_nil in Ho.
Qed.

(** Two stores that agree on the keys of a prefix have the same scan. *)
Lemma getByPrefix_ext (pfx : string) s s' :
  (∀ k, String.prefix pfx k = true → s !! k = s' !! k) →
  kv.getByPrefix pfx s = kv.getByPrefix pfx s'.
Proof.
  intros Hagree. unfold kv.getByPrefix. f_equal. f_equal.
  apply map_eq. intros k. rewrite !map_lookup_filter.
  destruct (String.prefix pfx k) eqn:Hk.
  - by rewrite Hagree.
  - destruct (s !! k), (s' !! k); simpl; repeat case_guard; try done;
      simpl in *; by rewrite Hk in *.
Qed.

(** Prefixes that start with different characters share no key. *)
Lemma prefix_disjoint (a b : ascii) (p q k : string) :
  a ≠ b → String.prefix (String a p) k = true → String.prefix (String b q) k = false.
Proof.
  intros Hab Hk. destruct k as [|c k]; [done|]. simpl in *.
  destruct (Ascii.ascii_dec a c) as [<-|]; [|done].
  by destruct (Ascii.ascii_dec b a) as [->|].
Qed.

End ServerMore.

(** A key that starts with none of the prefixes of a route is not written
    by its handler. *)
Lemma handle_outside `{Server.Services} `{Server.Tables}
    (r : Server.Route) (req : Server.Request) (env : Server.Env) (s : Store) (k : string) :
  Forall (fun pfx => String.prefix pfx k = false) (Server.namespaces r) →
  (Server.handle r req env s).2 !! k = s !! k.
Proof.
  intros Hk.
  destruct r; cbn [Server.handle Server.namespaces] in *;
    unfold Server.post_admin_signup, Server.get_products, Server.get_product,
      Server.post_products, Server.put_product, Server.delete_product,
      Server.post_upload_image, Server.post_init_sample_data,
      Server.get_delivery_locations, Server.post_delivery_locations,
      Server.put_delivery_location, Server.delete_delivery_location,
      Server.post_orders, Server.post_payment_mpesa, Server.post_payment_card,
      Server.get_payment, Server.get_orders, Server.put_order,
      Server.get_categories, Server.get_categories_active, Server.post_categories,
      Server.put_category_toggle, Server.delete_category,
      Server.post_category_add_products, Server.post_init_categories,
      Server.protected, Server.with_json, kv.get, kv.set, kv.del;
    cbv zeta;
    repeat match goal with
           | Hk : Forall _ (_ :: _) |- _ => apply Forall_cons in Hk as [? Hk]
           end;
    repeat case_match; cbn [snd]; try done;
    rewrite ?set_all_outside by done; try done;
    try (by apply lookup_insert_ne, key_outside);
    try (by apply lookup_delete_ne, key_outside).
  match goal with
  | Hadd : Server.add_products ?e ?l s = (_, ?s') |- ?s' !! k = _ =>
      replace s' with (Server.add_products e l s).2 by (by rewrite Hadd);
      by apply add_products_outside
  end.
Qed.

(** X7: a handler writes only under the key prefixes of its own kind of
    record: a key that starts with none of them holds after the request
    what it held before.  The reads, signup and the image upload have no
    prefix and leave the whole store as it is. *)
Theorem routes_write_own_namespace `{Server.Services} `{Server.Tables}
    (r : Server.Route) (req : Server.Request) (env : Server.Env) (s : Store) :
  (∀ k, Forall (fun pfx => String.prefix pfx k = false) (Server.namespaces r) →
        (Server.handle r req env s).2 !! k = s !! k)
  ∧ (Server.namespaces r = [] → (Server.handle r req env s).2 = s)
  ∧ (Server.method r = Server.GET → Server.namespaces r = []).
Proof.
  split; [intros k; apply handle_outside|]. split.
  - intros Hnone. apply map_eq. intros k. apply handle_outside. rewrite Hnone. constructor.
  - by destruct r.
Qed.



(** X9: a product created by an authorised POST /products can be read
    back: GET /products/:id with the new id answers 200 with the very
    record the POST returned, and GET /products lists it. *)
Theorem created_product_is_readable `{Server.Services} `{Server.Tables}
    (req req' : Server.Request) (env env' : Server.Env) (s : Store)
    (product : Json.value) :
  Server.authorized req = true →
  Server.json req = Some product →
  let id := Server.randomUUID env 0 in
  let created := Server.handle Server.PostProducts req env s in
  ∃ p,
    created.1 = Server.respond 200 [("product", Json.VObj p)]
    ∧ p !! "id" = Some (Json.VStr id)
    ∧ Server.handle (Server.GetProduct id) req' env' created.2
      = (Server.respond 200 [("product", Json.VObj p)], created.2)
    ∧ p ∈ kv.getByPrefix "product:" created.2.
Proof.
  intros Hauth Hjson id created.
  assert (created
          = (Server.respond 200
               [("product",
                 Json.VObj (<["updatedAt" := Json.VStr (Server.toISOString env 1)]>
                    (<["createdAt" := Json.VStr (Server.toISOString env 0)]>
                       (<["id" := Json.VStr id]> (Json.spread product)))))],
             <["product:" +:+ id :=
                 <["updatedAt" := Json.VStr (Server.toISOString env 1)]>
                   (<["createdAt" := Json.VStr (Server.toISOString env 0)]>
                      (<["id" := Json.VStr id]> (Json.spread product)))]> s)) as ->.
  { subst created. cbn [Server.handle].
    unfold Server.post_products, Server.protected, Server.with_json.
    by rewrite Hauth, Hjson. }
  eexists. cbn [fst snd]. split; [reflexivity|]. split.
  { rewrite !lookup_insert_ne by done. apply lookup_insert_eq. }
  split.
  - cbn [Server.handle]. unfold Server.get_product, kv.get. by rewrite lookup_insert_eq.
  - apply getByPrefix_elem. eexists. split; [apply prefix_append|apply lookup_insert_eq].
Qed.

Lemma created_product_is_readable_witness :
  let body := Json.VObj (Json.object [("name", Json.VStr "Tote")]) in
  let created := Server.handle (H := Demo.services) (H0 := Demo.tables) Server.PostProducts
                   (Demo.admin (Some body)) Demo.env ∅ in
  Server.authorized (H := Demo.services) (Demo.admin (Some body)) = true
  ∧ ∃ p, p !! "id" = Some (Json.VStr "uuid-0")
         ∧ Server.handle (H := Demo.services) (H0 := Demo.tables) (Server.GetProduct "uuid-0")
             (Demo.anonymous None) Demo.env created.2
           = (Server.respond 200 [("product", Json.VObj p)], created.2).
Proof.
  intros body created. split; [reflexivity|].
  destruct (created_product_is_readable (H := Demo.services) (H0 := Demo.tables)
              (Demo.admin (Some body)) (Demo.anonymous None) Demo.env Demo.env ∅ body
              eq_refl eq_refl) as (p & _ & Hid & Hget & _).
  exists p. split; assumption.
Defined.

(** X10: an authorised DELETE /products/:id answers 200 with success
    whether or not the product exists, so deleting twice is deleting once;
    afterwards GET /products/:id answers 404 and every other key of the
    store holds what it held. *)
Theorem deleted_product_is_gone `{Server.Services} `{Server.Tables}
    (id : string) (req req' req'' : Server.Request) (env env' env'' : Server.Env)
    (s : Store) :
  Server.authorized req = true →
  Server.authorized req' = true →
  let deleted := Server.handle (Server.DeleteProduct id) req env s in
  deleted.1 = Server.respond 200 [("success", Json.VBool true)]
  ∧ Server.handle (Server.DeleteProduct id) req' env' deleted.2 = deleted
  ∧ Server.handle (Server.GetProduct id) req'' env'' deleted.2
    = (Server.error 404 "Product not found", deleted.2)
  ∧ ∀ k, k ≠ "product:" +:+ id → deleted.2 !! k = s !! k.
Proof.
  intros Hauth Hauth' deleted.
  assert (deleted = (Server.respond 200 [("success", Json.VBool true)],
                     delete ("product:" +:+ id) s)) as ->.
  { subst deleted. cbn [Server.handle]. unfold Server.delete_product, Server.protected.
    by rewrite Hauth. }
  cbn [fst snd]. split; [done|]. split.
  { cbn [Server.handle]. unfold Server.delete_product, Server.protected, kv.del.
    by rewrite Hauth', delete_delete_eq. }
  split.
  { cbn [Server.handle]. unfold Server.get_product, kv.get. by rewrite lookup_delete_eq. }
  intros k Hk. by apply lookup_delete_ne.
Qed.

Lemma deleted_product_is_gone_witness :
  let s : Store := {["product:7" := Demo.boots]} in
  let deleted := Server.handle (H := Demo.services) (H0 := Demo.tables)
                   (Server.DeleteProduct "7") (Demo.admin None) Demo.env s in
  Server.authorized (H := Demo.services) (Demo.admin None) = true
  ∧ Server.handle (H := Demo.services) (H0 := Demo.tables) (Server.GetProduct "7")
      (Demo.anonymous None) Demo.env deleted.2
    = (Server.error 404 "Product not found", deleted.2).
Proof.
  intros s deleted. split; [reflexivity|].
  apply (deleted_product_is_gone (H := Demo.services) (H0 := Demo.tables) "7"
           (Demo.admin None) (Demo.admin None) (Demo.anonymous None)
           Demo.env Demo.env Demo.env s eq_refl eq_refl).
Defined.

(** X11: POST /init-categories is idempotent: whatever the first call did,
    a second call finds categories, answers that they already exist and
    writes nothing. *)
Theorem init_categories_idempotent `{Server.Services} `{Server.Tables}
    (req req' : Server.Request) (env env' : Server.Env) (s : Store) :
  let first := Server.handle Server.PostInitCategories req env s in
  Server.handle Server.PostInitCategories req' env' first.2
  = (Server.respond 200 [("success", Json.VBool true);
                         ("message", Json.VStr "Categories already exist")],
     first.2).
Proof.
  cbn [Server.handle]. unfold Server.post_init_categories. cbv zeta.
  assert (∀ s' : Store, kv.getByPrefix "category:" s' ≠ [] →
            (length (kv.getByPrefix "category:" s') =? 0) = false) as Hlen.
  { intros s' Hs'. apply Nat.eqb_neq. by destruct (kv.getByPrefix "category:" s'). }
  destruct (length (kv.getByPrefix "category:" s) =? 0) eqn:Hempty; cbn [snd].
  - rewrite Hlen; [done|]. apply set_all_nonempty.
    unfold Server.defaultCategories. simpl. discriminate.
  - by rewrite Hempty.
Qed.

(** X12: POST /init-sample-data returns as soon as it has seeded the
    products: called on a store without products it writes no delivery
    location, and the default delivery locations appear only with a later
    call that finds products in the store. *)
Theorem init_sample_data_seeds_in_two_calls `{Server.Services} `{Server.Tables}
    (req req' : Server.Request) (env env' : Server.Env) (s : Store) :
  kv.getByPrefix "product:" s = [] →
  kv.getByPrefix "delivery:" s = [] →
  Server.sampleProducts ≠ [] →
  let first := Server.handle Server.PostInitSampleData req env s in
  let second := Server.handle Server.PostInitSampleData req' env' first.2 in
  kv.getByPrefix "delivery:" first.2 = []
  ∧ kv.getByPrefix "product:" first.2 ≠ []
  ∧ kv.getByPrefix "delivery:" second.2 ≠ []
  ∧ kv.getByPrefix "product:" second.2 = kv.getByPrefix "product:" first.2.
Proof.
  intros Hproducts Hdelivery Hsamples first second.
  assert (first.2 = Server.set_all "product:" (imap (Server.stamped env) Server.sampleProducts) s)
    as Hfirst.
  { subst first. cbn [Server.handle]. unfold Server.post_init_sample_data. cbv zeta.
    by rewrite Hproducts. }
  assert (imap (Server.stamped env) Server.sampleProducts ≠ []) as Hstamped.
  { by destruct Server.sampleProducts. }
  assert (kv.getByPrefix "delivery:" first.2 = []) as Hnone.
  { rewrite Hfirst, <- Hdelivery. apply getByPrefix_ext. intros k Hk.
    apply set_all_outside. eapply prefix_disjoint; [|exact Hk]. done. }
  assert (kv.getByPrefix "product:" first.2 ≠ []) as Hsome.
  { rewrite Hfirst. by apply set_all_nonempty. }
  split; [exact Hnone|]. split; [exact Hsome|].
  assert (second.2 = Server.set_all "delivery:" (Server.defaultLocations env') first.2)
    as Hsecond.
  { subst second. cbn [Server.handle]. unfold Server.post_init_sample_data. cbv zeta.
    rewrite Hnone.
    destruct (kv.getByPrefix "product:" first.2); [done|]. reflexivity. }
  rewrite Hsecond. split.
  { apply set_all_nonempty. unfold Server.defaultLocations. simpl. discriminate. }
  apply getByPrefix_ext. intros k Hk.
  apply set_all_outside. eapply prefix_disjoint; [|exact Hk]. done.
Qed.

Lemma init_sample_data_seeds_in_two_calls_witness :
  let first := Server.handle (H := Demo.services) (H0 := Demo.catalogue)
                 Server.PostInitSampleData (Demo.anonymous None) Demo.env ∅ in
  let second := Server.handle (H := Demo.services) (H0 := Demo.catalogue)
                  Server.PostInitSampleData (Demo.anonymous None) Demo.env first.2 in
  kv.getByPrefix "product:" (∅ : Store) = []
  ∧ kv.getByPrefix "delivery:" first.2 = []
  ∧ kv.getByPrefix "delivery:" second.2 ≠ [].
Proof.
  intros first second.
  assert (kv.getByPrefix "product:" (∅ : Store) = []) as Hproducts by reflexivity.
  assert (kv.getByPrefix "delivery:" (∅ : Store) = []) as Hdelivery by reflexivity.
  split; [exact Hproducts|].
  destruct (init_sample_data_seeds_in_two_calls (H := Demo.services) (H0 := Demo.catalogue)
              (Demo.anonymous None) (Demo.anonymous None) Demo.env Demo.env ∅
              Hproducts Hdelivery) as (Hnone & _ & Hsome & _); [discriminate|].
  split; assumption.
Defined.

(** X13: two authorised toggles of a stored category whose [active] is a
    boolean give the record back: every field but [updatedAt] holds what
    it held before the first toggle. *)
Theorem toggle_twice_restores `{Server.Services} `{Server.Tables}
    (id : string) (req req' : Server.Request) (env env' : Server.Env) (s : Store)
    (existing : JsonObject) (b : bool) :
  Server.authorized req = true →
  Server.authorized req' = true →
  s !! ("category:" +:+ id) = Some existing →
  existing !! "active" = Some (Json.VBool b) →
  let once := Server.handle (Server.PutCategoryToggle id) req env s in
  let twice := Server.handle (Server.PutCategoryToggle id) req' env' once.2 in
  twice.2 = <["category:" +:+ id :=
               <["updatedAt" := Json.VStr (Server.toISOString env' 0)]> existing]> s.
Proof.
  intros Hauth Hauth' Hexisting Hactive once twice.
  subst once twice. cbn [Server.handle].
  unfold Server.put_category_toggle, Server.protected, kv.get, kv.set.
  rewrite Hauth, Hexisting. cbn [snd]. rewrite Hauth', lookup_insert_eq. cbn [snd].
  rewrite insert_insert_eq. f_equal.
  apply map_eq. intros k. unfold Server.toggled.
  destruct (decide (k = "updatedAt")) as [->|Hup].
  { by rewrite !lookup_insert_eq. }
  rewrite (lookup_insert_ne _ "updatedAt" k) by done.
  rewrite (lookup_insert_ne existing "updatedAt" k) by done.
  destruct (decide (k = "active")) as [->|Hact].
  - rewrite lookup_insert_eq, lookup_insert_ne, lookup_insert_eq by done.
    rewrite Hactive. simpl. by rewrite negb_involutive.
  - by rewrite !lookup_insert_ne.
Qed.

Lemma toggle_twice_restores_witness :
  let once := Server.handle (H := Demo.services) (H0 := Demo.tables)
                (Server.PutCategoryToggle "c2") (Demo.admin None) Demo.env Demo.shop in
  let twice := Server.handle (H := Demo.services) (H0 := Demo.tables)
                 (Server.PutCategoryToggle "c2") (Demo.admin None) Demo.env once.2 in
  Demo.shop !! "category:c2" = Some Demo.footwear
  ∧ twice.2 = <["category:c2" :=
                 <["updatedAt" := Json.VStr "2024-01-02T00:00:00.000Z"]> Demo.footwear]>
                Demo.shop.
Proof.
  intros once twice. split; [reflexivity|].
  apply (toggle_twice_restores (H := Demo.services) (H0 := Demo.tables) "c2"
           (Demo.admin None) (Demo.admin None) Demo.env Demo.env Demo.shop
           Demo.footwear true); reflexivity.
Defined.

(** ** The Authorization header *)

Lemma split_word (sep : ascii) (word : string) :
  ¬ In sep (String.list_ascii_of_string word) → JS.split sep word = [word].
Proof.
  induction word as [|c word IH]; simpl; [done|].
  intros Hno. destruct (Ascii.eqb_spec c sep) as [->|_]; [tauto|].
  rewrite IH by tauto. done.
Qed.

Lemma split_first (sep : ascii) (word rest : string) :
  ¬ In sep (String.list_ascii_of_string word) →
  JS.split sep (word +:+ String sep rest) = word :: JS.split sep rest.
Proof.
  induction word as [|c word IH]; simpl.
  - intros _. by rewrite Ascii.eqb_refl.
  - intros Hno. destruct (Ascii.eqb_spec c sep) as [->|_]; [tauto|].
    rewrite IH by tauto. done.
Qed.

(** X14: the guard reads the second word of the Authorization header and
    never looks at the first: a header made of any scheme word, a space
    and a token is accepted exactly when "Bearer" with that token is; a
    header of a single word gives no token at all. *)
Theorem authorization_scheme_is_ignored `{Server.Services}
    (scheme token : string) (body : option Json.value) (file : option (option Server.File)) :
  ¬ In " "%char (String.list_ascii_of_string scheme) →
  ¬ In " "%char (String.list_ascii_of_string token) →
  let request header :=
    {| Server.authorization := Some header; Server.json := body;
       Server.formFile := file |} in
  Server.accessToken (request (scheme +:+ " " +:+ token)) = Some token
  ∧ Server.authorized (request (scheme +:+ " " +:+ token))
    = Server.authorized (request ("Bearer " +:+ token))
  ∧ Server.accessToken (request scheme) = None.
Proof.
  intros Hscheme Htoken request.
  assert (∀ word, ¬ In " "%char (String.list_ascii_of_string word) →
            Server.accessToken (request (word +:+ " " +:+ token)) = Some token) as Htok.
  { intros word Hword. unfold Server.accessToken, request; simpl.
    change (" " +:+ token) with (String " "%char token).
    by rewrite split_first, split_word. }
  split; [by apply Htok|]. split.
  - unfold Server.authorized. rewrite Htok by done.
    change ("Bearer " +:+ token) with ("Bearer" +:+ " " +:+ token).
    rewrite (Htok "Bearer"); [done|]. simpl. intros Hin.
    repeat destruct Hin as [Hin|Hin]; try discriminate Hin. done.
  - unfold Server.accessToken, request; simpl. by rewrite split_word.
Qed.

Lemma authorization_scheme_is_ignored_witness :
  Server.authorized (H := Demo.services)
    {| Server.authorization := Some "Basic admin-token"; Server.json := None;
       Server.formFile := None |}
  = Server.authorized (H := Demo.services)
      {| Server.authorization := Some "Bearer admin-token"; Server.json := None;
         Server.formFile := None |}.
Proof.
  apply (authorization_scheme_is_ignored (H := Demo.services) "Basic" "admin-token"
           None None).
  - simpl. intros Hin. repeat destruct Hin as [Hin|Hin]; try discriminate Hin. done.
  - simpl. intros Hin. repeat destruct Hin as [Hin|Hin]; try discriminate Hin. done.
Defined.

(** ** Payments, order dates and the category form *)
Section ServerFlows.
Import Json Server.
Context `{Services} `{Tables}.
Implicit Types s : Store.

Lemma lookup_with_field (k k' : string) (v : option value) (o : JsonObject) :
  with_field k v o !! k'
  = if decide (k = k') then match v with Some x => Some x | None => o !! k' end
    else o !! k'.
Proof.
  unfold with_field. destruct v as [x|]; case_decide; subst;
    by rewrite ?lookup_insert_eq, ?lookup_insert_ne.
Qed.

(** The scan of the orders, key by key. *)
Lemma datedOrders_iff s :
  datedOrders s
  ↔ ∀ k o, String.prefix "order:" k = true → s !! k = Some o → is_Some (createdTime o).
Proof.
  unfold datedOrders. rewrite Forall_forall. split.
  - intros Hall k o Hk Ho. apply Hall, getByPrefix_elem. eauto.
  - intros Hall o (k & Hk & Ho)%getByPrefix_elem. eauto.
Qed.

(** The fields of the record of a card payment. *)
Lemma payment_fields (paymentId method stamp : string) (orderId amount : option value) :
  let p := payment paymentId method stamp orderId amount [] in
  p !! "cardDetails" = None
  ∧ p !! "id" = Some (VStr paymentId)
  ∧ p !! "method" = Some (VStr method)
  ∧ p !! "status" = Some (VStr "pending")
  ∧ p !! "amount" = amount
  ∧ p !! "orderId" = orderId.
Proof.
  unfold payment, object. cbn [foldr list_to_map fst snd].
  repeat split; rewrite !lookup_with_field; repeat case_decide; try done;
    try (by destruct orderId); try (by destruct amount);
    repeat (rewrite lookup_insert_ne by done); by rewrite ?lookup_insert_eq, ?lookup_empty.
Qed.

Lemma order_outside (r : Route) (k : string) :
  String.prefix "order:" k = true →
  ¬ In "order:" (namespaces r) →
  Forall (fun pfx => String.prefix pfx k = false) (namespaces r).
Proof.
  intros Hk Hr. apply Forall_forall. intros pfx Hpfx%list_elem_of_In.
  destruct r; simpl in *; try tauto;
    repeat destruct Hpfx as [<-|Hpfx]; try tauto;
    (eapply prefix_disjoint; [|exact Hk]; done).
Qed.

End ServerFlows.

(** X15: POST /payment/card never stores the card: for a body that is not
    [null] the payment record holds the generated id, the method, the
    status 'pending', the time and the [amount] and [orderId] of the body,
    and has no [cardDetails] field; GET /payment/:id returns that record.
    A [null] body is answered with 500 and stores nothing. *)
Theorem card_details_are_not_stored `{Server.Services} `{Server.Tables}
    (req req' : Server.Request) (env env' : Server.Env) (s : Store) (b : Json.value) :
  Server.json req = Some b →
  let id := Server.randomUUID env 0 in
  let paid := Server.handle Server.PostPaymentCard req env s in
  match Json.prop b "amount", Json.prop b "orderId" with
  | Some amount, Some orderId =>
      ∃ p,
        paid.2 = <["payment:" +:+ id := p]> s
        ∧ p !! "cardDetails" = None
        ∧ p !! "id" = Some (Json.VStr id)
        ∧ p !! "method" = Some (Json.VStr "card")
        ∧ p !! "status" = Some (Json.VStr "pending")
        ∧ p !! "amount" = amount
        ∧ p !! "orderId" = orderId
        ∧ Server.handle (Server.GetPayment id) req' env' paid.2
          = (Server.respond 200 [("payment", Json.VObj p)], paid.2)
  | _, _ => paid = (Server.error 500 "Failed to initiate card payment", s)
  end.
Proof.
  intros Hjson id paid. subst paid. cbn [Server.handle].
  unfold Server.post_payment_card, Server.with_json. rewrite Hjson.
  destruct b; cbn [Json.prop]; try done;
    (eexists; cbn [snd]; split; [reflexivity|];
     match goal with
     | |- context [Server.payment ?a ?b ?c ?d ?e []] =>
         destruct (payment_fields a b c d e) as (? & ? & ? & ? & ? & ?)
     end;
     repeat split; try assumption;
     cbn [Server.handle]; unfold Server.get_payment, kv.get, kv.set;
     by rewrite lookup_insert_eq).
Qed.



Lemma card_details_are_not_stored_witness :
  let body := Json.VObj (Json.object
                [("cardDetails", Json.VObj (Json.object [("number", Json.VStr "4242")]));
                 ("amount", Json.VNum 2160); ("orderId", Json.VStr "uuid-0")]) in
  let paid := Server.handle (H := Demo.services) (H0 := Demo.tables) Server.PostPaymentCard
                (Demo.anonymous (Some body)) Demo.env ∅ in
  Server.json (Demo.anonymous (Some body)) = Some body
  ∧ ∃ p, paid.2 = <["payment:uuid-0" := p]> ∅
         ∧ p !! "cardDetails" = None
         ∧ p !! "amount" = Some (Json.VNum 2160).
Proof.
  intros body paid. split; [reflexivity|].
  destruct (card_details_are_not_stored (H := Demo.services) (H0 := Demo.tables)
              (Demo.anonymous (Some body)) (Demo.anonymous None) Demo.env Demo.env ∅ body
              eq_refl) as (p & Hpaid & Hcard & _ & _ & _ & Hamount & _).
  exists p. split; [exact Hpaid|]. split; [exact Hcard|]. exact Hamount.
Defined.

(** X16: the orders keep their dates.  If every stored order has a
    [createdAt] that is a date and the server's clock reads a date, then
    so it is after any request, unless a PUT /orders/:id carries a
    [createdAt] of its own; the status update of the order console, whose
    body is [{ status }], never does. *)
Theorem order_dates_are_kept `{Server.Services} `{Server.Tables}
    (r : Server.Route) (req : Server.Request) (env : Server.Env) (s : Store) :
  Server.datedOrders s →
  is_Some (Server.getTime (Some (Json.VStr (Server.toISOString env 0)))) →
  (∀ id updates, r = Server.PutOrder id → Server.json req = Some updates →
                 Json.spread updates !! "createdAt" = None) →
  Server.datedOrders (Server.handle r req env s).2
  ∧ ∀ accessToken orderId newStatus,
      Server.datedOrders (Admin.updateOrderStatus accessToken orderId newStatus env s).2.
Proof.
  intros Hdated Hclock Hput.
  assert (∀ id req', (∀ updates, Server.json req' = Some updates →
                        Json.spread updates !! "createdAt" = None) →
            Server.datedOrders (Server.handle (Server.PutOrder id) req' env s).2) as Hupdate.
  { intros id req' Hkeep. apply datedOrders_iff. intros k o Hk Ho.
    rewrite datedOrders_iff in Hdated.
    cbn [Server.handle] in Ho.
    unfold Server.put_order, Server.protected, Server.with_json, kv.get, kv.set in Ho.
    destruct (Server.authorized req'); [|by eauto].
    destruct (Server.json req') as [updates|] eqn:Hjson; [|by eauto].
    destruct (s !! ("order:" +:+ id)) as [existing|] eqn:Hexisting; cbn [snd] in Ho;
      [|by eauto].
    destruct (decide ("order:" +:+ id = k)) as [<-|Hne].
    - rewrite lookup_insert_eq in Ho. injection Ho as <-.
      unfold Server.createdTime.
      destruct (merged_fields existing updates id (Server.toISOString env 0))
        as (_ & _ & Hrest).
      rewrite Hrest by done. rewrite (Hkeep updates) by done.
      eapply (Hdated ("order:" +:+ id)); [apply prefix_append|done].
    - rewrite lookup_insert_ne in Ho by done. eauto. }
  split.
  - destruct (decide ("order:" ∈ Server.namespaces r)) as [Hin|Hout];
      rewrite list_elem_of_In in *.
    + destruct r; simpl in Hin; try tauto;
        repeat destruct Hin as [Hin|Hin]; try discriminate Hin; try done.
      * apply datedOrders_iff. intros k o Hk Ho. rewrite datedOrders_iff in Hdated.
        cbn [Server.handle] in Ho. unfold Server.post_orders, Server.with_json, kv.set in Ho.
        destruct (Server.json req) as [order|]; cbn [snd] in Ho; [|by eauto].
        destruct (decide ("order:" +:+ Server.randomUUID env 0 = k)) as [<-|Hne].
        -- rewrite lookup_insert_eq in Ho. injection Ho as <-.
           unfold Server.createdTime.
           destruct (newOrder_fields order (Server.randomUUID env 0)
                       (Server.toISOString env 0)) as (_ & _ & -> & _).
           exact Hclock.
        -- rewrite lookup_insert_ne in Ho by done. eauto.
      * apply Hupdate. intros updates Hupdates. by eapply Hput.
    + apply datedOrders_iff. intros k o Hk Ho. rewrite datedOrders_iff in Hdated.
      rewrite handle_outside in Ho by (by apply order_outside). eauto.
  - intros accessToken orderId newStatus. unfold Admin.updateOrderStatus.
    apply Hupdate. intros updates [= <-]. reflexivity.
Qed.

Lemma order_dates_are_kept_witness :
  let s : Store := {["order:a" := Demo.order "a" "2024-01-01T00:00:00.000Z"]} in
  Server.datedOrders (H := Demo.services) s
  ∧ Server.datedOrders (H := Demo.services)
      (Admin.updateOrderStatus (H := Demo.services) (H0 := Demo.tables)
         "admin-token" "a" "shipped" Demo.env s).2.
Proof.
  intros s.
  assert (Server.datedOrders (H := Demo.services) s) as Hdated.
  { apply datedOrders_iff. intros k o _ Ho. subst s.
    apply lookup_singleton_Some in Ho as [_ <-]. by eexists. }
  split; [exact Hdated|].
  apply (order_dates_are_kept (H := Demo.services) (H0 := Demo.tables)
           Server.GetOrders (Demo.admin None) Demo.env s Hdated).
  - by eexists.
  - discriminate.
Defined.



(** * Properties of the checkout dialog *)
Section WizardProofs.
Import Json Server Wizard.
Context `{Services} `{Tables} `{Client}.
Implicit Types s : Store.


(** The answer to the order request of the dialog. *)
Lemma order_request (cart : list Checkout.CartItem) (d : Delivery) (env : Env) s :
  handle PostOrders (anon (orderBody cart d)) env s
  = (respond 200
       [("order", VObj (newOrder (orderBody cart d) (randomUUID env 0) (toISOString env 0)))],
     <["order:" +:+ randomUUID env 0 :=
         newOrder (orderBody cart d) (randomUUID env 0) (toISOString env 0)]> s).
Proof. reflexivity. Qed.

Lemma orderBody_fields (cart : list Checkout.CartItem) (d : Delivery) (id stamp : string) :
  let o := newOrder (orderBody cart d) id stamp in
  o !! "customerName" = Some (VStr (customerName d))
  ∧ o !! "customerEmail" = Some (VStr (customerEmail d))
  ∧ o !! "customerPhone" = Some (VStr (customerPhone d))
  ∧ o !! "deliveryAddress" = Some (VStr (deliveryAddress d))
  ∧ o !! "deliveryLocation"
    = Some (match selectedLocation d with Some l => locationJson l | None => VNull end)
  ∧ o !! "subtotal" = Some (number (Checkout.subtotal cart))
  ∧ o !! "deliveryCost" = Some (number (Checkout.deliveryCost (selectedLocation d)))
  ∧ o !! "tax" = Some (number (Checkout.tax cart))
  ∧ o !! "total" = Some (number (Checkout.total cart (selectedLocation d))).
Proof.
  destruct (newOrder_fields (orderBody cart d) id stamp) as (_ & _ & _ & Hrest).
  cbv zeta. rewrite !Hrest by done.
  unfold orderBody, object. cbn [spread list_to_map foldr fst snd].
  repeat split; repeat (rewrite lookup_insert_ne by done); apply lookup_insert_eq.
Qed.





(** The fields of the payment request, as the server reads them. *)
Lemma paymentBody_fields (cart : list Checkout.CartItem) (d : Delivery) (p : Payment)
    (orderId : value) (k : string) :
  prop (paymentBody cart d p (Some orderId)) k
  = Some (if decide (k = "orderId") then Some orderId
          else if decide (k = "amount")
          then Some (number (Checkout.total cart (selectedLocation d)))
          else match paymentMethod p with
               | mpesa => if decide (k = "phoneNumber") then Some (VStr (mpesaPhone p))
                          else None
               | card =>
                   if decide (k = "cardDetails")
                   then Some (VObj (object [("number", VStr (cardNumber p));
                                            ("expiry", VStr (cardExpiry p));
                                            ("cvc", VStr (cardCvc p));
                                            ("name", VStr (cardName p))]))
                   else None
               end).
Proof.
  unfold paymentBody, prop. cbv zeta. f_equal. rewrite lookup_with_field.
  destruct (paymentMethod p); unfold object at 1; cbn [list_to_map foldr fst snd];
    repeat case_decide; subst; try done;
    rewrite ?lookup_insert_eq; try done;
    repeat (rewrite lookup_insert_ne by done); by rewrite ?lookup_insert_eq, ?lookup_empty.
Qed.

Lemma payment_request (cart : list Checkout.CartItem) (d : Delivery) (p : Payment)
    (orderId : value) (env : Env) s :
  ∃ record,
    handle (paymentRoute p) (anon (paymentBody cart d p (Some orderId))) env s
    = (respond 200
         [("success", VBool true); ("paymentId", VStr (randomUUID env 0));
          ("message",
           VStr match paymentMethod p with
                | mpesa => "M-Pesa STK push sent. Please enter your PIN on your phone."
                | card => "Card payment processing..."
                end)],
       <["payment:" +:+ randomUUID env 0 := record]> s)
    ∧ record !! "id" = Some (VStr (randomUUID env 0))
    ∧ record !! "method" = Some (VStr (methodName (paymentMethod p)))
    ∧ record !! "status" = Some (VStr "pending")
    ∧ record !! "orderId" = Some orderId
    ∧ record !! "amount" = Some (number (Checkout.total cart (selectedLocation d)))
    ∧ record !! "cardDetails" = None.
Proof.
  unfold paymentRoute, methodName.
  destruct (paymentMethod p) eqn:Hmethod; cbn [handle];
    unfold post_payment_mpesa, post_payment_card, with_json; cbn [json anon];
    rewrite !paymentBody_fields, Hmethod; repeat case_decide; try done;
    cbv zeta; eexists; (split; [reflexivity|]).
  - unfold Server.payment, object. cbn [foldr list_to_map fst snd].
    repeat split; rewrite !lookup_with_field; repeat case_decide; try done;
      repeat (rewrite lookup_insert_ne by done); by rewrite ?lookup_insert_eq, ?lookup_empty.
  - destruct (payment_fields (randomUUID env 0) "card" (toISOString env 0) (Some orderId)
                (Some (number (Checkout.total cart (selectedLocation d)))))
      as (? & ? & ? & ? & ? & ?).
    by repeat split.
Qed.


(** X19: [handlePayment] with the payment details given always reaches the
    success step, and leaves exactly two new records in the store: the
    order, under the identifier the server drew for it, with the total of
    the dialog, and the payment, which names that order, the same total as
    its amount, the method chosen and the status 'pending', and never the
    card. *)
Theorem paid_checkout_links_order_and_payment (cart : list Checkout.CartItem)
    (orderEnv paymentEnv : Env) (st : State) s :
  paymentGiven (pay st) = true →
  let total := number (Checkout.total cart (selectedLocation (details st))) in
  let orderId := randomUUID orderEnv 0 in
  let paymentId := randomUUID paymentEnv 0 in
  ∃ o p,
    handlePayment cart orderEnv paymentEnv st s
    = (setStep success st,
       <["payment:" +:+ paymentId := p]> (<["order:" +:+ orderId := o]> s))
    ∧ o !! "id" = Some (VStr orderId)
    ∧ o !! "status" = Some (VStr "pending")
    ∧ o !! "total" = Some total
    ∧ p !! "orderId" = Some (VStr orderId)
    ∧ p !! "amount" = Some total
    ∧ p !! "method" = Some (VStr (methodName (paymentMethod (pay st))))
    ∧ p !! "status" = Some (VStr "pending")
    ∧ p !! "cardDetails" = None.
Proof.
  intros Hgiven. cbv zeta. unfold handlePayment. rewrite Hgiven, order_request.
  cbn [negb]. set (o := newOrder _ _ _).
  destruct (newOrder_fields (orderBody cart (details st)) (randomUUID orderEnv 0)
              (toISOString orderEnv 0)) as (Hid & Hstatus & _).
  destruct (orderBody_fields cart (details st) (randomUUID orderEnv 0)
              (toISOString orderEnv 0)) as (_ & _ & _ & _ & _ & _ & _ & _ & Htotal).
  fold o in Hid, Hstatus, Htotal.
  replace (Shop.ok (respond 200 [("order", VObj o)])) with true by reflexivity.
  cbn [negb].
  replace (orderIdOf (body (respond 200 [("order", VObj o)])))
    with (Some (o !! "id")).
  2:{ unfold respond, object. cbn [body list_to_map foldr fst snd orderIdOf].
      by rewrite lookup_insert_eq. }
  rewrite Hid.
  destruct (payment_request cart (details st) (pay st) (VStr (randomUUID orderEnv 0))
              paymentEnv (<["order:" +:+ randomUUID orderEnv 0 := o]> s))
    as (p & -> & ? & ? & ? & ? & ? & ?).
  exists o, p. by repeat split.
Qed.

End WizardProofs.


Lemma paid_checkout_links_order_and_payment_witness :
  let st := Wizard.setPay Demo.mpesaNumber Wizard.initial in
  let paid := Wizard.handlePayment (H := Demo.services) (H0 := Demo.tables)
                (H1 := Demo.client) [] Demo.env Demo.env2 st ∅ in
  Wizard.paymentGiven (Wizard.pay st) = true
  ∧ Wizard.step paid.1 = Wizard.success
  ∧ ∃ o p, paid.2 = <["payment:uuid-b0" := p]> (<["order:uuid-0" := o]> ∅)
           ∧ p !! "orderId" = Some (Json.VStr "uuid-0")
           ∧ p !! "method" = Some (Json.VStr "mpesa").
Proof.
  intros st paid. split; [reflexivity|].
  destruct (paid_checkout_links_order_and_payment (H := Demo.services) (H0 := Demo.tables)
              (H1 := Demo.client) [] Demo.env Demo.env2 st ∅ eq_refl)
    as (o & p & Hpaid & _ & _ & _ & HorderId & _ & Hmethod & _).
  subst paid. rewrite Hpaid. split; [reflexivity|].
  exists o, p. split; [reflexivity|]. split; [exact HorderId|exact Hmethod].
Defined.

(** * Records that are created one after another *)
Section ServerLists.
Import Json Server.
Context `{Services} `{Tables}.
Implicit Types s : Store.

Lemma set_all_fresh (pfx k : string) (l : list JsonObject) s :
  k ∉ keyOf pfx <$> l → set_all pfx l s !! k = s !! k.
Proof.
  unfold set_all. revert s. induction l as [|o l IH]; intros s Hk; simpl; [done|].
  rewrite fmap_cons, not_elem_of_cons in Hk. destruct Hk as [Hne Hk].
  rewrite IH by done. unfold kv.set. by rewrite lookup_insert_ne.
Qed.





(** X20: a delivery location in the life of the console.  An authorised
    POST /delivery-locations answers with the body under a new id; GET
    /delivery-locations then lists it beside the locations there were; an
    authorised DELETE of that id gives back the store as it was before
    the POST, when the id was not in use. *)
Theorem delivery_location_comes_and_goes (req req' req'' : Request)
    (env env' env'' : Env) s (location : value) :
  authorized req = true →
  authorized req' = true →
  json req = Some location →
  s !! ("delivery:" +:+ randomUUID env 0) = None →
  let id := randomUUID env 0 in
  let l := <["id" := VStr id]> (spread location) in
  let created := handle PostDeliveryLocations req env s in
  let deleted := handle (DeleteDeliveryLocation id) req' env' created.2 in
  created.1 = respond 200 [("location", VObj l)]
  ∧ (∃ listed,
       handle GetDeliveryLocations req'' env'' created.2
       = (respond 200 [("locations", objects listed)], created.2)
       ∧ listed ≡ₚ l :: kv.getByPrefix "delivery:" s)
  ∧ deleted = (respond 200 [("success", VBool true)], s).
Proof.
  intros Hreq Hreq' Hjson Hnew. cbv zeta. cbn [handle].
  unfold post_delivery_locations, delete_delivery_location, get_delivery_locations,
    protected, with_json.
  rewrite Hreq, Hjson. cbn [fst snd]. rewrite Hreq'.
  split; [done|]. split.
  - eexists. split; [reflexivity|].
    rewrite getByPrefix_set_perm by apply prefix_append.
    unfold kv.del. by rewrite delete_id.
  - unfold kv.del, kv.set. by rewrite delete_insert_id.
Qed.


End ServerLists.

Lemma delivery_location_comes_and_goes_witness :
  let body := Json.VObj (Json.object [("name", Json.VStr "Thika"); ("cost", Json.VNum 300);
                                      ("region", Json.VStr "Kiambu")]) in
  let created := Server.handle (H := Demo.services) (H0 := Demo.tables)
                   Server.PostDeliveryLocations (Demo.admin (Some body)) Demo.env ∅ in
  Server.authorized (H := Demo.services) (Demo.admin (Some body)) = true
  ∧ Server.handle (H := Demo.services) (H0 := Demo.tables)
      (Server.DeleteDeliveryLocation "uuid-0") (Demo.admin None) Demo.env2 created.2
    = (Server.respond 200 [("success", Json.VBool true)], ∅).
Proof.
  intros body created. split; [reflexivity|].
  destruct (delivery_location_comes_and_goes (H := Demo.services) (H0 := Demo.tables)
              (Demo.admin (Some body)) (Demo.admin None) (Demo.anonymous None)
              Demo.env Demo.env2 Demo.env ∅ body eq_refl eq_refl eq_refl
              (lookup_empty _))
    as (_ & _ & Hdeleted).
  exact Hdeleted.
Defined.

